(** * E-commerce analytics: the data generator and the aggregation engine

    A shallow embedding of [src/generate_data.py] and [src/analysis.py].

    Modelling conventions.
    - A pandas DataFrame of transactions is the list of its rows, in row
      order; every row carries the eleven columns of the schema, none of
      them null.  The one place where the source builds a frame that may
      lack its columns ([pd.DataFrame(data)] with [data = []]) keeps the
      column list explicit, see [DataFrame].
    - A float is the rational it denotes ([Q], compared with [==]).  The
      generator and the engine are first written with exact arithmetic on
      these values; where a statement depends on how binary64 rounds a sum
      (the reconciliation of revenue sums, the segment thresholds), the
      functions are written over a [FloatArith] and evaluated with its
      [binary64] instance, in which every operation is the exact one
      followed by rounding to the nearest double.  [round(x, 2)] is
      rounding to the nearest hundredth, ties to even.
    - A calendar date is its day number ([Z]); the ['%Y-%m-%d'] strings of
      the source order the same way for four-digit years.
    - The two global pseudo-random generators are threaded explicitly as a
      state, and exceptions are an error result. *)

From Stdlib Require Import ZArith QArith Qround Qabs List Bool String Ascii.
From Stdlib Require Import Lia Lqa Permutation Sorted DecimalString.
From Stdlib Require Import Qpower.
From Stdlib Require DecimalN DecimalPos.
Import ListNotations.

Local Open Scope Q_scope.
Local Open Scope string_scope.

(** ** Exceptions and results *)

Inductive exn : Type :=
| KeyError (key : string)
| ZeroDivisionError
| ValueError
| IndexError.

Inductive result (A : Type) : Type :=
| Ok (a : A)
| Raise (e : exn).
Arguments Ok {A} a.
Arguments Raise {A} e.

(** The error kinds of the specification (section 7), and the Python
    exceptions that signal each of them. *)
Inductive condition : Type :=
| InvalidArgument
| DataNotFound
| EmptyInputError
| DivisionByZero.

Definition signals (e : exn) (c : condition) : bool :=
  match e, c with
  | ValueError, InvalidArgument => true
  | ZeroDivisionError, DivisionByZero => true
  | _, _ => false
  end.

(** ** Numbers *)

(** Nearest integer, ties to even (Python 3 [round]). *)
Definition round_half_even (q : Q) : Z :=
  let f := Qfloor q in
  match Qcompare (q - inject_Z f) (1 # 2) with
  | Lt => f
  | Gt => (f + 1)%Z
  | Eq => if Z.even f then f else (f + 1)%Z
  end.

(** [round(x, 2)] *)
Definition round2 (q : Q) : Q := inject_Z (round_half_even (q * 100)) / 100.

(** [int(x)]: truncation toward zero. *)
Definition py_int (q : Q) : Z := Z.quot (Qnum q) (Zpos (Qden q)).

(** Python's [a / b] on two ints. *)
Definition py_truediv (a b : Z) : result Q :=
  if (b =? 0)%Z then Raise ZeroDivisionError else Ok (inject_Z a / inject_Z b).

(** A float64 cell produced by pandas arithmetic: numpy division does not
    raise, a zero denominator yields [inf] or [NaN]. *)
Inductive npfloat : Type :=
| Fin (q : Q)
| Inf
| NaN.

Definition np_truediv (a b : Z) : npfloat :=
  if (b =? 0)%Z then (if (a =? 0)%Z then NaN else Inf)
  else Fin (inject_Z a / inject_Z b).

Definition np_scale (x : npfloat) (k : Q) : npfloat :=
  match x with
  | Fin q => Fin (q * k)
  | Inf => Inf
  | NaN => NaN
  end.

Fixpoint Qsum (l : list Q) : Q :=
  match l with
  | [] => 0
  | x :: l' => x + Qsum l'
  end.

Fixpoint Zsum (l : list Z) : Z :=
  match l with
  | [] => 0%Z
  | x :: l' => (x + Zsum l')%Z
  end.

(** [Series.mean()]: [NaN] on an empty selection. *)
Definition series_mean (l : list Q) : npfloat :=
  match l with
  | [] => NaN
  | _ => Fin (Qsum l / inject_Z (Z.of_nat (List.length l)))
  end.

(** [Series.min()] on a date column: [None] stands for the [NaN] of an
    empty selection. *)
Fixpoint series_min (l : list Z) : option Z :=
  match l with
  | [] => None
  | x :: l' =>
      match series_min l' with
      | None => Some x
      | Some m => Some (Z.min x m)
      end
  end.

(** ** String formatting *)

Fixpoint zfill (k : nat) (s : string) : string :=
  match k with
  | O => s
  | S k' => zfill k' ("0" ++ s)
  end.

(** [f"{z:0{width}d}"] *)
Definition format_0d (width : nat) (z : Z) : string :=
  let digits := NilZero.string_of_uint (N.to_uint (Z.abs_N z)) in
  if (z <? 0)%Z
  then "-" ++ zfill (width - 1 - String.length digits) digits
  else zfill (width - String.length digits) digits.

(** ** The data model *)

Record Transaction : Type := mkTransaction {
  transaction_id : string;
  date : Z;
  customer_id : string;
  category : string;
  product : string;
  quantity : Z;
  unit_price : Q;
  total_amount : Q;
  region : string;
  payment_method : string;
  status : string
}.

Record Customer : Type := mkCustomer {
  c_customer_id : string;
  first_purchase_date : option Z;
  total_purchases : Z;
  total_spent : Q;
  segment : string
}.

Definition Completed : string := "Complété".

Definition is_completed (r : Transaction) : bool := status r =? Completed.

Definition CATEGORIES : list string :=
  ["Électronique"; "Vêtements"; "Maison & Jardin"; "Sports & Loisirs"; "Livres"].

Definition PRODUCTS (c : string) : result (list string) :=
  if c =? "Électronique" then
    Ok ["Smartphone"; "Laptop"; "Tablette"; "Écouteurs"; "Montre connectée"; "Enceinte Bluetooth"]
  else if c =? "Vêtements" then
    Ok ["T-shirt"; "Jean"; "Robe"; "Veste"; "Chaussures"; "Sac à main"]
  else if c =? "Maison & Jardin" then
    Ok ["Aspirateur"; "Cafetière"; "Lampe"; "Coussin"; "Plante"; "Bougie"]
  else if c =? "Sports & Loisirs" then
    Ok ["Ballon"; "Tapis de yoga"; "Vélo"; "Raquette"; "Sac de sport"; "Gourde"]
  else if c =? "Livres" then
    Ok ["Roman"; "BD"; "Guide pratique"; "Biographie"; "Science-fiction"; "Cuisine"]
  else Raise (KeyError c).

Definition REGIONS : list string :=
  ["Île-de-France"; "Auvergne-Rhône-Alpes"; "Provence-Alpes-Côte d'Azur";
   "Nouvelle-Aquitaine"; "Occitanie"; "Hauts-de-France"; "Bretagne"; "Grand Est"].

Definition PAYMENT_METHODS : list string :=
  ["Carte bancaire"; "PayPal"; "Virement"; "Apple Pay"].

Definition STATUSES : list string := [Completed; "Annulé"; "Remboursé"].

(** ** Generic list operations of the data-frame layer *)

Section Sorting.
Context {A : Type} (le : A -> A -> bool).

Fixpoint insert_by (x : A) (l : list A) : list A :=
  match l with
  | [] => [x]
  | y :: l' => if le x y then x :: l else y :: insert_by x l'
  end.

(** [sort_values]: rows ordered by [le].  Rows that tie keep their
    relative order here; pandas' default quicksort leaves the order of
    ties open, and no theorem below depends on it beyond the fact that
    the same comparisons give the same order. *)
Definition sort_by (l : list A) : list A := fold_right insert_by [] l.
End Sorting.

Section Unique.
Context {A : Type} (eqb : A -> A -> bool).

(** The distinct values, in order of first appearance
    ([Series.unique()]). *)
Fixpoint unique_by (l : list A) : list A :=
  match l with
  | [] => []
  | x :: l' => x :: filter (fun y => negb (eqb y x)) (unique_by l')
  end.
End Unique.

(** A frame as [pd.DataFrame(list_of_dicts)] builds it: the columns are
    the keys of the dicts, so there are none when the list is empty. *)
Record DataFrame : Type := mkDataFrame {
  columns : list string;
  rows : list Transaction
}.

Definition SCHEMA : list string :=
  ["transaction_id"; "date"; "customer_id"; "category"; "product"; "quantity";
   "unit_price"; "total_amount"; "region"; "payment_method"; "status"].

Definition pd_DataFrame (data : list Transaction) : DataFrame :=
  {| columns := match data with [] => [] | _ :: _ => SCHEMA end;
     rows := data |}.

Definition date_le (r1 r2 : Transaction) : bool := (date r1 <=? date r2)%Z.

(** [df.sort_values('date').reset_index(drop=True)] *)
Definition sort_values_date (df : DataFrame) : result DataFrame :=
  if existsb (String.eqb "date") (columns df)
  then Ok {| columns := columns df; rows := sort_by date_le (rows df) |}
  else Raise (KeyError "date").

(** ** The pseudo-random sources

    [np.random] and [random] are two independent global generators.  Their
    primitive draws are the interface below; the library functions the
    generator calls are written over it. *)

Class RandomSource : Type := {
  np_state : Type;
  py_state : Type;
  np_seed : Z -> np_state;
  py_seed : Z -> py_state;
  (** [np.random.exponential(scale)] *)
  np_exponential : Q -> np_state -> Q * np_state;
  (** the index [np.random.choice(a, p=p)] selects *)
  np_weighted_index : list Q -> np_state -> nat * np_state;
  (** [random.random()] *)
  py_random : py_state -> Q * py_state;
  (** [random._randbelow(n)] *)
  py_randbelow : Z -> py_state -> Z * py_state
}.

(** What the library documents about the range of each draw. *)
Class RandomLaws (R : RandomSource) : Prop := {
  np_weighted_index_lt : forall p s,
    p <> [] -> (fst (np_weighted_index p s) < List.length p)%nat;
  py_random_range : forall s,
    0 <= fst (py_random s) /\ fst (py_random s) < 1;
  py_randbelow_range : forall n s,
    (0 < n)%Z -> (0 <= fst (py_randbelow n s) < n)%Z
}.

Section Generator.
Context {R : RandomSource}.

Definition rng : Type := (np_state * py_state)%type.

(** Module initialisation: [np.random.seed(seed); random.seed(seed)]. *)
Definition seed_all (seed : Z) : rng := (np_seed seed, py_seed seed).

(** Computations that draw from the generators and may raise. *)
Definition M (A : Type) : Type := rng -> result (A * rng).

Definition ret {A} (a : A) : M A := fun s => Ok (a, s).

Definition bind {A B} (m : M A) (f : A -> M B) : M B :=
  fun s => match m s with
           | Ok (a, s') => f a s'
           | Raise e => Raise e
           end.

Definition raise {A} (e : exn) : M A := fun _ => Raise e.

Definition lift {A} (r : result A) : M A :=
  fun s => match r with
           | Ok a => Ok (a, s)
           | Raise e => Raise e
           end.

Definition with_np {A} (f : np_state -> A * np_state) : M A :=
  fun s => let (a, n') := f (fst s) in Ok (a, (n', snd s)).

Definition with_py {A} (f : py_state -> A * py_state) : M A :=
  fun s => let (a, p') := f (snd s) in Ok (a, (fst s, p')).

Local Notation "x <- m ;; k" := (bind m (fun x => k))
  (at level 61, m at next level, right associativity).

(** [seq[i]] *)
Definition getitem {A} (seq : list A) (i : nat) : M A :=
  match nth_error seq i with
  | Some x => ret x
  | None => raise IndexError
  end.

(** [random.uniform(a, b)] is [a + (b - a) * random()]. *)
Definition random_uniform (a b : Q) : M Q :=
  u <- with_py py_random ;;
  ret (a + (b - a) * u).

(** [random.randint(a, b)] is [randrange(a, b + 1)]: [ValueError] on an
    empty range, else [a + _randbelow(b - a + 1)]. *)
Definition random_randint (a b : Z) : M Z :=
  if (b - a + 1 <=? 0)%Z then raise ValueError
  else
    k <- with_py (py_randbelow (b - a + 1)) ;;
    ret (a + k)%Z.

(** [random.choice(seq)] is [seq[_randbelow(len(seq))]]; an empty
    sequence raises [IndexError]. *)
Definition random_choice {A} (seq : list A) : M A :=
  match seq with
  | [] => raise IndexError
  | _ :: _ =>
      i <- with_py (py_randbelow (Z.of_nat (List.length seq))) ;;
      getitem seq (Z.to_nat i)
  end.

(** [np.random.choice(a, p=p)]: [ValueError] unless [a] and [p] have the
    same size and the probabilities sum to 1. *)
Definition np_random_choice {A} (a : list A) (p : list Q) : M A :=
  if negb (List.length a =? List.length p)%nat || negb (Qeq_bool (Qsum p) 1)
  then raise ValueError
  else
    i <- with_np (np_weighted_index p) ;;
    getitem a i.

Definition np_random_exponential (scale : Q) : M Q :=
  with_np (np_exponential scale).

(** One iteration of the loop of [generate_ecommerce_data] (lines 48-103):
    the row for index [i], appended to [data]. *)
Definition generate_row (start_date : Z) (i : Z) (data : list Transaction)
  : M (list Transaction) :=
  e <- np_random_exponential 200 ;;
  days_offset <- (let days_offset := py_int e in
                  if (days_offset >? 730)%Z then random_randint 0 730
                  else ret days_offset) ;;
  let transaction_date := (start_date + days_offset)%Z in
  category <- random_choice CATEGORIES ;;
  catalog <- lift (PRODUCTS category) ;;
  product <- random_choice catalog ;;
  base_price <- (if category =? "Électronique" then random_uniform 50 1200
                 else if category =? "Vêtements" then random_uniform 15 150
                 else if category =? "Maison & Jardin" then random_uniform 10 300
                 else if category =? "Sports & Loisirs" then random_uniform 10 500
                 else random_uniform 5 50) ;;
  quantity <- np_random_choice [1; 2; 3; 4; 5]%Z
                [1 # 2; 1 # 4; 15 # 100; 7 # 100; 3 # 100] ;;
  jitter <- random_uniform (9 # 10) (11 # 10) ;;
  let price := round2 (base_price * jitter) in
  let total := round2 (price * inject_Z quantity) in
  k <- random_randint 1 1000 ;;
  let customer_id := "CUST_" ++ format_0d 4 k in
  region <- random_choice REGIONS ;;
  payment <- random_choice PAYMENT_METHODS ;;
  status <- np_random_choice STATUSES [95 # 100; 3 # 100; 2 # 100] ;;
  ret (data ++ [ {| transaction_id := "TXN_" ++ format_0d 6 (i + 1);
                    date := transaction_date;
                    customer_id := customer_id;
                    category := category;
                    product := product;
                    quantity := quantity;
                    unit_price := price;
                    total_amount := if status =? Completed then total else 0;
                    region := region;
                    payment_method := payment;
                    status := status |} ])%list.

(** [for i in range(i, i + k): data = body(i, data)] *)
Fixpoint for_range (k : nat) (i : Z)
         (body : Z -> list Transaction -> M (list Transaction))
         (data : list Transaction) : M (list Transaction) :=
  match k with
  | O => ret data
  | S k' => data' <- body i data ;; for_range k' (i + 1)%Z body data'
  end.

(** [generate_ecommerce_data(n_transactions)].  [today] is the calendar
    day [datetime.now()] reads from the clock. *)
Definition generate_ecommerce_data (today : Z) (n_transactions : Z)
  : M DataFrame :=
  let start_date := (today - 730)%Z in
  data <- for_range (Z.to_nat n_transactions) 0 (generate_row start_date) [] ;;
  let df := pd_DataFrame data in
  lift (sort_values_date df).
End Generator.

(** ** Customers derived from transactions *)

Definition Qgt_bool (a b : Q) : bool := negb (Qle_bool a b).

Definition unique (l : list string) : list string := unique_by String.eqb l.

(** [generate_customer_data(transactions_df)], lines 126-158. *)
Definition generate_customer_data (transactions_df : list Transaction)
  : list Customer :=
  let customers := unique (map customer_id transactions_df) in
  map (fun cid =>
         let first_purchase :=
           series_min (map date
             (filter (fun r => customer_id r =? cid) transactions_df)) in
         let total_purchases :=
           Z.of_nat (List.length
             (filter (fun r => customer_id r =? cid) transactions_df)) in
         let total_spent :=
           Qsum (map total_amount
             (filter (fun r => (customer_id r =? cid) && (status r =? Completed))
                     transactions_df)) in
         let segment :=
           if Qgt_bool total_spent 2000 then "Premium"
           else if Qgt_bool total_spent 500 then "Régulier"
           else "Occasionnel" in
         {| c_customer_id := cid;
            first_purchase_date := first_purchase;
            total_purchases := total_purchases;
            total_spent := round2 total_spent;
            segment := segment |})
      customers.

(** The script body (lines 160-171): both tables, from freshly seeded
    generators.  The source fixes the seed to 42 and the size to 5000. *)
Definition generate_tables {R : RandomSource} (seed today n : Z)
  : result (DataFrame * list Customer) :=
  match generate_ecommerce_data today n (seed_all seed) with
  | Ok (transactions, _) =>
      Ok (transactions, generate_customer_data (rows transactions))
  | Raise e => Raise e
  end.

(** ** The aggregation engine *)

Section GroupBy.
Context {K : Type} (keq kle : K -> K -> bool).

(** The group keys of [df.groupby(key)]: the distinct key values, in
    ascending order. *)
Definition group_keys (l : list K) : list K := sort_by kle (unique_by keq l).

(** The groups: each key with the rows that carry it, in row order. *)
Definition groupby (key : Transaction -> K) (df : list Transaction)
  : list (K * list Transaction) :=
  map (fun k => (k, filter (fun r => keq (key r) k) df))
      (group_keys (map key df)).
End GroupBy.

Definition pair_eqb (a b : string * string) : bool :=
  (fst a =? fst b) && (snd a =? snd b).

Definition pair_leb (a b : string * string) : bool :=
  if fst a =? fst b then (snd a <=? snd b) else (fst a <=? fst b).

Record KPIs : Type := mkKPIs {
  total_revenue : Q;
  total_transactions : Z;
  avg_order_value : npfloat;
  total_customers : Z;
  total_products_sold : Z;
  conversion_rate : Q
}.

(** [calculate_kpis(df)], lines 30-43.  The dictionary is filled from the
    Completed rows; the conversion rate divides two Python ints. *)
Definition calculate_kpis (df : list Transaction) : result KPIs :=
  let completed := filter is_completed df in
  match py_truediv (Z.of_nat (List.length completed)) (Z.of_nat (List.length df)) with
  | Raise e => Raise e
  | Ok ratio =>
      Ok {| total_revenue := Qsum (map total_amount completed);
            total_transactions := Z.of_nat (List.length completed);
            avg_order_value := series_mean (map total_amount completed);
            total_customers :=
              Z.of_nat (List.length (unique (map customer_id df)));
            total_products_sold := Zsum (map quantity completed);
            conversion_rate := ratio * 100 |}
  end.

Record CategoryStats : Type := mkCategoryStats {
  cs_category : string;
  cs_revenue : Q;
  cs_transactions : Z;
  cs_units_sold : Z
}.

Record RegionStats : Type := mkRegionStats {
  rs_region : string;
  rs_revenue : Q;
  rs_transactions : Z
}.

Record ProductStats : Type := mkProductStats {
  ps_product : string;
  ps_category : string;
  ps_revenue : Q;
  ps_units_sold : Z;
  ps_orders : Z
}.

Record PaymentStats : Type := mkPaymentStats {
  pm_payment_method : string;
  pm_revenue : Q;
  pm_transactions : Z;
  pm_percentage : npfloat
}.

(** [sort_values(col, ascending=False)] on a numeric column. *)
Definition sort_desc {A} (col : A -> Q) (l : list A) : list A :=
  sort_by (fun a b => Qle_bool (col b) (col a)) l.

(** [df.head(n)]: the first [n] rows, or all but the last [-n] when [n] is
    negative. *)
Definition head {A} (n : Z) (l : list A) : list A :=
  if (0 <=? n)%Z then firstn (Z.to_nat n) l
  else firstn (List.length l - Z.to_nat (- n)) l.

(** [sales_by_category(df)], lines 59-70. *)
Definition sales_by_category (df : list Transaction) : list CategoryStats :=
  let completed := filter is_completed df in
  let category_stats :=
    map (fun g => {| cs_category := fst g;
                     cs_revenue := Qsum (map total_amount (snd g));
                     cs_transactions := Z.of_nat (List.length (snd g));
                     cs_units_sold := Zsum (map quantity (snd g)) |})
        (groupby String.eqb String.leb category completed) in
  sort_desc cs_revenue category_stats.

(** [sales_by_region(df)], lines 86-96. *)
Definition sales_by_region (df : list Transaction) : list RegionStats :=
  let completed := filter is_completed df in
  let region_stats :=
    map (fun g => {| rs_region := fst g;
                     rs_revenue := Qsum (map total_amount (snd g));
                     rs_transactions := Z.of_nat (List.length (snd g)) |})
        (groupby String.eqb String.leb region completed) in
  sort_desc rs_revenue region_stats.

(** [top_products(df, n)], lines 142-153. *)
Definition top_products (df : list Transaction) (n : Z) : list ProductStats :=
  let completed := filter is_completed df in
  let product_stats :=
    map (fun g => {| ps_product := fst (fst g);
                     ps_category := snd (fst g);
                     ps_revenue := Qsum (map total_amount (snd g));
                     ps_units_sold := Zsum (map quantity (snd g));
                     ps_orders := Z.of_nat (List.length (snd g)) |})
        (groupby pair_eqb pair_leb (fun r => (product r, category r)) completed) in
  head n (sort_desc ps_revenue product_stats).

(** [payment_method_analysis(df)], lines 193-204.  The percentage column
    is computed from the grouped counts before the final sort. *)
Definition payment_method_analysis (df : list Transaction) : list PaymentStats :=
  let completed := filter is_completed df in
  let payment_stats :=
    map (fun g => (fst g,
                   Qsum (map total_amount (snd g)),
                   Z.of_nat (List.length (snd g))))
        (groupby String.eqb String.leb payment_method completed) in
  let total := Zsum (map snd payment_stats) in
  let with_percentage :=
    map (fun s => {| pm_payment_method := fst (fst s);
                     pm_revenue := snd (fst s);
                     pm_transactions := snd s;
                     pm_percentage := np_scale (np_truediv (snd s) total) 100 |})
        payment_stats in
  sort_desc pm_revenue with_percentage.

(** ** A concrete random source

    A linear congruential generator behind the [RandomSource] interface,
    to run the generator on concrete inputs. *)

Definition lcg (s : Z) : Z := ((1103515245 * s + 12345) mod 2147483648)%Z.

Definition lcg_source : RandomSource := {|
  np_state := Z;
  py_state := Z;
  np_seed := fun seed => seed;
  py_seed := fun seed => (seed + 1)%Z;
  np_exponential := fun scale s => (scale * inject_Z (lcg s mod 5), lcg s);
  np_weighted_index := fun p s =>
    (Z.to_nat (lcg s mod Z.of_nat (List.length p)), lcg s);
  py_random := fun s => (Qmake (lcg s mod 1000) 1000, lcg s);
  py_randbelow := fun n s => ((lcg s mod n)%Z, lcg s)
|}.

(** ** Statements used by the theorems *)

(** The tables of a run started [d] days later, were the draws the same:
    every date moved by [d] days. *)
Definition shift_transaction (d : Z) (r : Transaction) : Transaction :=
  {| transaction_id := transaction_id r;
     date := (date r + d)%Z;
     customer_id := customer_id r;
     category := category r;
     product := product r;
     quantity := quantity r;
     unit_price := unit_price r;
     total_amount := total_amount r;
     region := region r;
     payment_method := payment_method r;
     status := status r |}.

Definition shift_customer (d : Z) (c : Customer) : Customer :=
  {| c_customer_id := c_customer_id c;
     first_purchase_date := option_map (fun x => (x + d)%Z) (first_purchase_date c);
     total_purchases := total_purchases c;
     total_spent := total_spent c;
     segment := segment c |}.

Definition shift_frame (d : Z) (df : DataFrame) : DataFrame :=
  {| columns := columns df; rows := map (shift_transaction d) (rows df) |}.

Definition shift_tables (d : Z) (r : result (DataFrame * list Customer))
  : result (DataFrame * list Customer) :=
  match r with
  | Ok (df, cs) => Ok (shift_frame d df, map (shift_customer d) cs)
  | Raise e => Raise e
  end.

Section GeneratorStatements.
Context {R : RandomSource}.

(** Total correctness of a drawing computation: from every generator
    state it returns, without raising, a value that satisfies [P]. *)
Definition returns {A} (m : M A) (P : A -> Prop) : Prop :=
  forall s, exists a s', m s = Ok (a, s') /\ P a.

(** The outcome of a run, with [f] applied to the value it returns. *)
Definition map_result {A B} (f : A -> B) (r : result (A * rng))
  : result (B * rng) :=
  match r with
  | Ok (a, s) => Ok (f a, s)
  | Raise e => Raise e
  end.
End GeneratorStatements.

(** The invariant of a generated row. *)
Definition amount_matches_status (r : Transaction) : Prop :=
  (total_amount r == 0 <-> status r <> Completed) /\
  (status r = Completed -> 0 < total_amount r).


(** The specification's [total_spent] before rounding: the sum of
    [total_amount] over the Completed transactions of customer [cid]. *)
Fixpoint completed_spend (cid : string) (t : list Transaction) : Q :=
  match t with
  | [] => 0
  | r :: t' =>
      if (customer_id r =? cid) && (status r =? Completed)
      then total_amount r + completed_spend cid t'
      else completed_spend cid t'
  end.

(** An amount that is a whole number of hundredths. *)
Definition whole_cents (q : Q) : Prop := exists z : Z, q == inject_Z z / 100.

(** Sample tables. *)
Definition sample_row (id : string) (day : Z) (cust cat prod : string)
           (qty : Z) (price amount : Q) (reg pay st : string) : Transaction :=
  {| transaction_id := id; date := day; customer_id := cust; category := cat;
     product := prod; quantity := qty; unit_price := price;
     total_amount := amount; region := reg; payment_method := pay;
     status := st |}.

Definition sample_table : list Transaction :=
  [ sample_row "TXN_000001" 5 "CUST_0001" "Livres" "Roman" 1 100 100
               "Bretagne" "PayPal" Completed;
    sample_row "TXN_000002" 3 "CUST_0002" "Vêtements" "Jean" 2 100 200
               "Occitanie" "Virement" Completed;
    sample_row "TXN_000003" 4 "CUST_0001" "Livres" "BD" 1 300 300
               "Bretagne" "PayPal" Completed;
    sample_row "TXN_000004" 1 "CUST_0001" "Livres" "BD" 1 300 0
               "Grand Est" "PayPal" "Annulé" ].

Definition cancelled_table : list Transaction :=
  [ sample_row "TXN_000001" 1 "CUST_0001" "Livres" "BD" 1 300 0
               "Grand Est" "PayPal" "Annulé";
    sample_row "TXN_000002" 2 "CUST_0002" "Livres" "Roman" 2 10 0
               "Bretagne" "Virement" "Remboursé" ].

(** ** The remaining engine function and the dashboard's filters *)

Section GroupByOn.
Context {X K : Type} (keq kle : K -> K -> bool).

(** [df.groupby(key)] on a frame with rows of any type. *)
Definition groupby_on (key : X -> K) (df : list X) : list (K * list X) :=
  map (fun k => (k, filter (fun r => keq (key r) k) df))
      (group_keys keq kle (map key df)).
End GroupByOn.

Record SegmentStats : Type := mkSegmentStats {
  sg_segment : string;
  sg_nb_customers : Z;
  sg_total_revenue : Q;
  sg_avg_spent : npfloat;
  sg_avg_purchases : npfloat
}.

(** [customer_segments_analysis(customers_df)], analysis.py lines 169-177.
    The result is not sorted again: it keeps the group order. *)
Definition customer_segments_analysis (customers_df : list Customer)
  : list SegmentStats :=
  map (fun g => {| sg_segment := fst g;
                   sg_nb_customers := Z.of_nat (List.length (snd g));
                   sg_total_revenue := Qsum (map total_spent (snd g));
                   sg_avg_spent := series_mean (map total_spent (snd g));
                   sg_avg_purchases :=
                     series_mean (map (fun c => inject_Z (total_purchases c))
                                      (snd g)) |})
      (groupby_on String.eqb String.leb segment customers_df).

(** The choices of a sidebar select box (app.py lines 79 and 83):
    [['Toutes'] + sorted(column.unique().tolist())]. *)
Definition select_options (column : list string) : list string :=
  "Toutes" :: sort_by String.leb (unique column).

(** The category and region steps of the dashboard's filtering block
    (app.py lines 96-100), applied to the frame [filtered_df] that the
    date step leaves. *)
Definition dashboard_filter (selected_category selected_region : string)
           (filtered_df : list Transaction) : list Transaction :=
  let filtered_df :=
    if negb (selected_category =? "Toutes")
    then filter (fun r => category r =? selected_category) filtered_df
    else filtered_df in
  let filtered_df :=
    if negb (selected_region =? "Toutes")
    then filter (fun r => region r =? selected_region) filtered_df
    else filtered_df in
  filtered_df.

(** A value passes a select box when the box is left on ['Toutes'] or
    shows that value. *)
Definition selected (choice value : string) : bool :=
  (choice =? "Toutes") || (value =? choice).

(** Reading back the number of an identifier: Python's [int(s)] on a
    string of decimal digits. *)
Definition parse_d (s : string) : option Z :=
  option_map (fun d => Z.of_N (N.of_uint d)) (NilZero.uint_of_string s).

Section GeneratedRow.
Context {R : RandomSource}.

(** What one iteration of the generator's loop puts in the row of index
    [i] (lines 48-103), field by field. *)
Record generated_row (start_date i : Z) (r : Transaction) : Prop := {
  gen_id : transaction_id r = "TXN_" ++ format_0d 6 (i + 1);
  gen_date :
    exists offset, date r = (start_date + offset)%Z /\ (offset <= 730)%Z /\
      ((0 <= offset)%Z \/
       exists s, offset = py_int (fst (np_exponential 200 s)));
  gen_customer :
    exists k, (1 <= k <= 1000)%Z /\ customer_id r = "CUST_" ++ format_0d 4 k;
  gen_category : In (category r) CATEGORIES;
  gen_product :
    exists catalog, PRODUCTS (category r) = Ok catalog /\ In (product r) catalog;
  gen_quantity : (1 <= quantity r <= 5)%Z;
  gen_price :
    exists base_price jitter,
      unit_price r = round2 (base_price * jitter) /\
      9 # 10 <= jitter /\ jitter <= 11 # 10 /\
      ((category r = "Électronique" /\ 50 <= base_price /\ base_price <= 1200) \/
       (category r = "Vêtements" /\ 15 <= base_price /\ base_price <= 150) \/
       (category r = "Maison & Jardin" /\ 10 <= base_price /\ base_price <= 300) \/
       (category r = "Sports & Loisirs" /\ 10 <= base_price /\ base_price <= 500) \/
       (category r = "Livres" /\ 5 <= base_price /\ base_price <= 50));
  gen_total :
    total_amount r =
      if status r =? Completed
      then round2 (unit_price r * inject_Z (quantity r)) else 0;
  gen_region : In (region r) REGIONS;
  gen_payment : In (payment_method r) PAYMENT_METHODS;
  gen_status : In (status r) STATUSES
}.
End GeneratedRow.

(** ** Binary64 arithmetic

    A double is represented by the rational it denotes.  Results beyond
    the largest finite double are outside the model. *)

(** [floor (log2 q)] for positive [q]. *)
Definition Qlog2 (q : Q) : Z :=
  let e := (Z.log2 (Qnum q) - Z.log2 (Zpos (Qden q)))%Z in
  if Qle_bool (Qpower 2 e) q then e else (e - 1)%Z.

(** The double nearest to [q], ties to even: 53 significant bits, and the
    fixed step [2^-1074] below the normal range. *)
Definition rnd64 (q : Q) : Q :=
  if Qeq_bool q 0 then 0
  else
    let e := Z.max (Qlog2 (Qabs q)) (-1022) in
    let ulp := Qpower 2 (e - 52) in
    Qred (inject_Z (round_half_even (q / ulp)) * ulp).

Definition add64 (a b : Q) : Q := rnd64 (a + b).
Definition sub64 (a b : Q) : Q := rnd64 (a - b).
Definition mul64 (a b : Q) : Q := rnd64 (a * b).
Definition div64 (a b : Q) : Q := rnd64 (a / b).

(** [Series.sum()] on a float column of fewer than eight values: numpy
    adds them in order.  (Longer columns are added blockwise; the
    theorems below hold for any summation, and this one is only evaluated
    on short columns.) *)
Definition np_sum64 (l : list Q) : Q := fold_left add64 l 0.

(** The [sum] of a group-by aggregation: pandas adds each group with a
    compensated (Kahan) loop. *)
Definition kahan_step (acc : Q * Q) (v : Q) : Q * Q :=
  let y := sub64 v (snd acc) in
  let t := add64 (fst acc) y in
  (t, sub64 (sub64 t (fst acc)) y).

Definition group_sum64 (l : list Q) : Q := fst (fold_left kahan_step l (0, 0)).

(** [round(x, 2)] on a double: the exact value rounded to hundredths, ties
    to even, then the nearest double. *)
Definition round64 (x : Q) : Q := rnd64 (round2 x).

(** The float operations the customer table and the engine use. *)
Record FloatArith : Type := mkFloatArith {
  f_sum : list Q -> Q;
  f_group_sum : list Q -> Q;
  f_div : Q -> Q -> Q;
  f_mul : Q -> Q -> Q;
  f_round2 : Q -> Q
}.

Definition exact : FloatArith :=
  {| f_sum := Qsum; f_group_sum := Qsum; f_div := Qdiv; f_mul := Qmult;
     f_round2 := round2 |}.

Definition binary64 : FloatArith :=
  {| f_sum := np_sum64; f_group_sum := group_sum64; f_div := div64;
     f_mul := mul64; f_round2 := round64 |}.

(** A decimal of the table read as a double. *)
Definition dec64 (cents : Z) : Q := rnd64 (inject_Z cents / 100).

Section FloatColumns.
Variable F : FloatArith.

(** [generate_customer_data(transactions_df)], lines 126-158, over [F]. *)
Definition generate_customer_data_in (transactions_df : list Transaction)
  : list Customer :=
  let customers := unique (map customer_id transactions_df) in
  map (fun cid =>
         let first_purchase :=
           series_min (map date
             (filter (fun r => customer_id r =? cid) transactions_df)) in
         let total_purchases :=
           Z.of_nat (List.length
             (filter (fun r => customer_id r =? cid) transactions_df)) in
         let total_spent :=
           f_sum F (map total_amount
             (filter (fun r => (customer_id r =? cid) && (status r =? Completed))
                     transactions_df)) in
         let segment :=
           if Qgt_bool total_spent 2000 then "Premium"
           else if Qgt_bool total_spent 500 then "Régulier"
           else "Occasionnel" in
         {| c_customer_id := cid;
            first_purchase_date := first_purchase;
            total_purchases := total_purchases;
            total_spent := f_round2 F total_spent;
            segment := segment |})
      customers.

(** [calculate_kpis(df)], lines 30-43, over [F]. *)
Definition calculate_kpis_in (df : list Transaction) : result KPIs :=
  let completed := filter is_completed df in
  if (Z.of_nat (List.length df) =? 0)%Z then Raise ZeroDivisionError
  else
    Ok {| total_revenue := f_sum F (map total_amount completed);
          total_transactions := Z.of_nat (List.length completed);
          avg_order_value :=
            match completed with
            | [] => NaN
            | _ :: _ =>
                Fin (f_div F (f_sum F (map total_amount completed))
                             (inject_Z (Z.of_nat (List.length completed))))
            end;
          total_customers :=
            Z.of_nat (List.length (unique (map customer_id df)));
          total_products_sold := Zsum (map quantity completed);
          conversion_rate :=
            f_mul F (f_div F (inject_Z (Z.of_nat (List.length completed)))
                             (inject_Z (Z.of_nat (List.length df))))
                    100 |}.

(** [sales_by_category(df)], lines 59-70, over [F]. *)
Definition sales_by_category_in (df : list Transaction) : list CategoryStats :=
  let completed := filter is_completed df in
  let category_stats :=
    map (fun g => {| cs_category := fst g;
                     cs_revenue := f_group_sum F (map total_amount (snd g));
                     cs_transactions := Z.of_nat (List.length (snd g));
                     cs_units_sold := Zsum (map quantity (snd g)) |})
        (groupby String.eqb String.leb category completed) in
  sort_desc cs_revenue category_stats.
End FloatColumns.

(** The revenue reconciliation as the specification states it, for one
    arithmetic and one collection. *)
Definition revenue_reconciles (F : FloatArith) (t : list Transaction) : Prop :=
  forall k, calculate_kpis_in F t = Ok k ->
            f_sum F (map cs_revenue (sales_by_category_in F t)) == total_revenue k.

(** Sample tables of whole-cent amounts, read as doubles. *)
Definition completed_row (id cust cat : string) (cents : Z) : Transaction :=
  sample_row id 1 cust cat "Roman" 1 (dec64 cents) (dec64 cents)
             "Bretagne" "PayPal" Completed.

(** Three Completed sales of 0.70, 2.90 and 0.60 in two categories. *)
Definition revenue_table : list Transaction :=
  [ completed_row "TXN_000001" "CUST_0001" "Livres" 70;
    completed_row "TXN_000002" "CUST_0002" "Vêtements" 290;
    completed_row "TXN_000003" "CUST_0003" "Vêtements" 60 ].

(** One customer with three Completed sales of 75.17, 403.17 and 21.66. *)
Definition boundary_500_table : list Transaction :=
  [ completed_row "TXN_000001" "CUST_0001" "Livres" 7517;
    completed_row "TXN_000002" "CUST_0001" "Livres" 40317;
    completed_row "TXN_000003" "CUST_0001" "Livres" 2166 ].

(** One customer with three Completed sales of 630.44, 303.66 and
    1065.90. *)
Definition boundary_2000_table : list Transaction :=
  [ completed_row "TXN_000001" "CUST_0001" "Livres" 63044;
    completed_row "TXN_000002" "CUST_0001" "Livres" 30366;
    completed_row "TXN_000003" "CUST_0001" "Livres" 106590 ].

(** * Properties of the data-frame layer *)

Section SortingFacts.
Context {A : Type} (le : A -> A -> bool).

Lemma insert_by_perm (x : A) (l : list A) :
  Permutation (insert_by le x l) (x :: l).
Proof.
  induction l as [|y l IH]; simpl; [reflexivity|].
  destruct (le x y); [reflexivity|].
  rewrite IH. apply perm_swap.
Qed.

Lemma sort_by_perm (l : list A) : Permutation (sort_by le l) l.
Proof.
  induction l as [|x l IH]; simpl; [constructor|].
  rewrite insert_by_perm. now constructor.
Qed.

Lemma sort_by_length (l : list A) : List.length (sort_by le l) = List.length l.
Proof. apply Permutation_length, sort_by_perm. Qed.

Lemma sort_by_In (l : list A) (x : A) : In x (sort_by le l) <-> In x l.
Proof.
  split; apply Permutation_in; [|symmetry]; apply sort_by_perm.
Qed.

Lemma sort_by_nil (l : list A) : sort_by le l = [] -> l = [].
Proof.
  intros H. apply Permutation_nil. rewrite <- H. apply sort_by_perm.
Qed.

Hypothesis le_total : forall a b, le a b = true \/ le b a = true.

Lemma insert_by_sorted (x : A) (l : list A) :
  Sorted (fun a b => le a b = true) l ->
  Sorted (fun a b => le a b = true) (insert_by le x l).
Proof.
  induction 1 as [|y l Hs IH Hd]; simpl.
  - repeat constructor.
  - destruct (le x y) eqn:E.
    + repeat constructor; assumption.
    + constructor; [assumption|].
      destruct (le_total x y) as [F|F]; [congruence|].
      destruct l as [|z l]; simpl; [now constructor|].
      destruct (le x z); constructor; [assumption|].
      now inversion Hd.
Qed.

Lemma sort_by_sorted (l : list A) :
  Sorted (fun a b => le a b = true) (sort_by le l).
Proof.
  induction l as [|x l IH]; simpl; [constructor|].
  now apply insert_by_sorted.
Qed.
End SortingFacts.

(** Sorting commutes with a row transformation that leaves every
    comparison unchanged. *)
Lemma sort_by_map {A : Type} (le : A -> A -> bool) (f : A -> A) :
  (forall a b, le (f a) (f b) = le a b) ->
  forall l, sort_by le (map f l) = map f (sort_by le l).
Proof.
  intros Hf.
  assert (Hi : forall x l, insert_by le (f x) (map f l) = map f (insert_by le x l)).
  { intros x l. induction l as [|y l IH]; simpl; [reflexivity|].
    rewrite Hf. destruct (le x y); simpl; [reflexivity|]. now rewrite IH. }
  induction l as [|x l IH]; simpl; [reflexivity|].
  now rewrite IH, Hi.
Qed.

Lemma firstn_In {A : Type} (n : nat) (l : list A) (x : A) :
  In x (firstn n l) -> In x l.
Proof.
  revert n. induction l as [|y l IH]; intros [|n]; simpl; try tauto.
  intros [H|H]; [now left | right; now apply (IH n)].
Qed.

Lemma StronglySorted_firstn {A : Type} (R : A -> A -> Prop) (n : nat) (l : list A) :
  StronglySorted R l -> StronglySorted R (firstn n l).
Proof.
  intros H. revert n. induction H as [|x l Hs IH Hx]; intros [|n]; simpl;
    try constructor.
  - apply IH.
  - rewrite Forall_forall in *. intros y Hy. apply Hx.
    now apply (firstn_In n).
Qed.

Lemma NoDup_firstn {A : Type} (n : nat) (l : list A) :
  NoDup l -> NoDup (firstn n l).
Proof.
  intros H. revert n. induction H as [|x l Hx Hn IH]; intros [|n]; simpl;
    try constructor.
  - intros Hin. apply Hx. now apply (firstn_In n).
  - apply IH.
Qed.

Section UniqueFacts.
Context {A : Type} (eqb : A -> A -> bool).
Hypothesis eqb_spec : forall a b, eqb a b = true <-> a = b.

Lemma unique_by_In (l : list A) (x : A) : In x (unique_by eqb l) <-> In x l.
Proof.
  induction l as [|y l IH]; simpl; [tauto|].
  rewrite filter_In, IH.
  split.
  - intros [H|[H _]]; auto.
  - intros [H|H]; auto.
    destruct (eqb x y) eqn:E.
    + left. symmetry. now apply eqb_spec.
    + right. now split.
Qed.

Lemma unique_by_NoDup (l : list A) : NoDup (unique_by eqb l).
Proof.
  induction l as [|y l IH]; simpl; constructor.
  - rewrite filter_In. intros [_ H].
    assert (E : eqb y y = true) by now apply eqb_spec.
    now rewrite E in H.
  - now apply NoDup_filter.
Qed.
End UniqueFacts.

Section GroupByFacts.
Context {K : Type} (keq kle : K -> K -> bool).
Hypothesis keq_spec : forall a b, keq a b = true <-> a = b.

Lemma group_keys_NoDup (l : list K) : NoDup (group_keys keq kle l).
Proof.
  unfold group_keys.
  apply (Permutation_NoDup (l := unique_by keq l)).
  - symmetry. apply sort_by_perm.
  - now apply unique_by_NoDup.
Qed.

Lemma group_keys_In (l : list K) (k : K) :
  In k (group_keys keq kle l) <-> In k l.
Proof.
  unfold group_keys. rewrite sort_by_In. now apply unique_by_In.
Qed.

Lemma group_keys_nil : group_keys keq kle [] = [].
Proof. reflexivity. Qed.

Lemma group_keys_length (l : list K) :
  List.length (group_keys keq kle l) = List.length (unique_by keq l).
Proof. apply sort_by_length. Qed.

End GroupByFacts.

Lemma Qsum_map_add {X : Type} (f g : X -> Q) (l : list X) :
  Qsum (map (fun x => f x + g x) l) == Qsum (map f l) + Qsum (map g l).
Proof.
  induction l as [|x l IH]; simpl; [ring|]. rewrite IH. ring.
Qed.

Lemma Qsum_map_ext {X : Type} (f g : X -> Q) (l : list X) :
  (forall x, f x == g x) -> Qsum (map f l) == Qsum (map g l).
Proof.
  intros H. induction l as [|x l IH]; simpl; [reflexivity|].
  now rewrite H, IH.
Qed.

Lemma Zsum_map_add {X : Type} (f g : X -> Z) (l : list X) :
  Zsum (map (fun x => f x + g x)%Z l) = (Zsum (map f l) + Zsum (map g l))%Z.
Proof.
  induction l as [|x l IH]; simpl; [reflexivity|]. rewrite IH. lia.
Qed.

Section PartitionFacts.
Context {K : Type} (keq : K -> K -> bool).
Hypothesis keq_spec : forall a b, keq a b = true <-> a = b.

(** Exactly one key of a duplicate-free key list selects a given row. *)
Lemma Qsum_select (ks : list K) (k : K) (v : Q) :
  NoDup ks -> In k ks ->
  Qsum (map (fun k' => if keq k k' then v else 0) ks) == v.
Proof.
  induction 1 as [|k0 ks Hk0 Hnd IH]; simpl; [tauto|].
  intros [->|Hin].
  - assert (E : keq k k = true) by now apply keq_spec.
    rewrite E.
    assert (Z0 : Qsum (map (fun k' => if keq k k' then v else 0) ks) == 0).
    { clear IH Hnd. induction ks as [|k1 ks IH]; simpl; [reflexivity|].
      destruct (keq k k1) eqn:E1.
      - apply keq_spec in E1. subst. exfalso. apply Hk0. now left.
      - rewrite IH; [reflexivity|]. intros H. apply Hk0. now right. }
    rewrite Z0. ring.
  - destruct (keq k k0) eqn:E.
    + apply keq_spec in E. subst. contradiction.
    + rewrite IH by assumption. ring.
Qed.

(** Grouping is a partition: the group sums add up to the sum over all
    rows. *)
Lemma Qsum_partition {X : Type} (key : X -> K) (f : X -> Q)
      (ks : list K) (l : list X) :
  NoDup ks -> (forall x, In x l -> In (key x) ks) ->
  Qsum (map (fun k => Qsum (map f (filter (fun x => keq (key x) k) l))) ks)
  == Qsum (map f l).
Proof.
  intros Hnd. induction l as [|x l IH]; intros Hin; simpl.
  - clear Hnd Hin. induction ks as [|k ks IHk]; simpl; [reflexivity|].
    simpl in IHk. rewrite IHk. ring.
  - rewrite (Qsum_map_ext _
      (fun k => (if keq (key x) k then f x else 0)
                + Qsum (map f (filter (fun x0 => keq (key x0) k) l)))).
    + rewrite Qsum_map_add, IH, Qsum_select; auto with datatypes.
      reflexivity.
    + intros k. destruct (keq (key x) k); simpl; ring.
Qed.

Lemma Zsum_select (ks : list K) (k : K) (v : Z) :
  NoDup ks -> In k ks ->
  Zsum (map (fun k' => if keq k k' then v else 0%Z) ks) = v.
Proof.
  induction 1 as [|k0 ks Hk0 Hnd IH]; simpl; [tauto|].
  intros [->|Hin].
  - assert (E : keq k k = true) by now apply keq_spec.
    rewrite E.
    assert (Z0 : Zsum (map (fun k' => if keq k k' then v else 0%Z) ks) = 0%Z).
    { clear IH Hnd. induction ks as [|k1 ks IH]; simpl; [reflexivity|].
      destruct (keq k k1) eqn:E1.
      - apply keq_spec in E1. subst. exfalso. apply Hk0. now left.
      - rewrite IH; [reflexivity|]. intros H. apply Hk0. now right. }
    lia.
  - destruct (keq k k0) eqn:E.
    + apply keq_spec in E. subst. contradiction.
    + rewrite IH by assumption. lia.
Qed.

(** The integer columns reconcile in the same way. *)
Lemma Zsum_partition {X : Type} (key : X -> K) (f : X -> Z)
      (ks : list K) (l : list X) :
  NoDup ks -> (forall x, In x l -> In (key x) ks) ->
  Zsum (map (fun k => Zsum (map f (filter (fun x => keq (key x) k) l))) ks)
  = Zsum (map f l).
Proof.
  intros Hnd. induction l as [|x l IH]; intros Hin; simpl.
  - clear Hnd Hin. induction ks as [|k ks IHk]; simpl; [reflexivity|].
    simpl in IHk. now rewrite IHk.
  - rewrite (map_ext _
      (fun k => ((if keq (key x) k then f x else 0)
                 + Zsum (map f (filter (fun x0 => keq (key x0) k) l)))%Z)).
    + rewrite Zsum_map_add, IH, Zsum_select; auto with datatypes.
    + intros k. destruct (keq (key x) k); reflexivity.
Qed.
End PartitionFacts.

Lemma Qsum_perm (l l' : list Q) : Permutation l l' -> Qsum l == Qsum l'.
Proof.
  induction 1; simpl; try ring.
  - now rewrite IHPermutation.
  - now rewrite IHPermutation1.
Qed.

Lemma Zsum_perm (l l' : list Z) : Permutation l l' -> Zsum l = Zsum l'.
Proof.
  induction 1; simpl; lia.
Qed.

Lemma Qsum_inject_Z (l : list Z) : Qsum (map inject_Z l) == inject_Z (Zsum l).
Proof.
  induction l as [|x l IH]; simpl; [reflexivity|].
  rewrite IH, inject_Z_plus. reflexivity.
Qed.

Lemma Zsum_ones {X : Type} (l : list X) :
  Zsum (map (fun _ => 1%Z) l) = Z.of_nat (List.length l).
Proof.
  induction l as [|x l IH]; [reflexivity|].
  cbn [map Zsum List.length]. rewrite IH, Nat2Z.inj_succ. lia.
Qed.

Lemma filter_and {X : Type} (p q : X -> bool) (l : list X) :
  filter q (filter p l) = filter (fun x => p x && q x) l.
Proof.
  induction l as [|x l IH]; simpl; [reflexivity|].
  destruct (p x); simpl; [destruct (q x)|]; now rewrite IH.
Qed.

Lemma filter_none {X : Type} (p : X -> bool) (l : list X) :
  (forall x, In x l -> p x = false) -> filter p l = [].
Proof.
  induction l as [|x l IH]; simpl; intros H; [reflexivity|].
  rewrite (H x) by now left. apply IH. intros y Hy. apply H. now right.
Qed.

Lemma pair_eqb_spec (a b : string * string) : pair_eqb a b = true <-> a = b.
Proof.
  destruct a as [a1 a2], b as [b1 b2]. unfold pair_eqb. simpl.
  rewrite andb_true_iff, !String.eqb_eq. split.
  - now intros [-> ->].
  - intros H. now inversion H.
Qed.

Lemma is_completed_spec (r : Transaction) :
  is_completed r = true <-> status r = Completed.
Proof. apply String.eqb_eq. Qed.

(** Every group of a [groupby] is one key of the frame with all the rows
    that carry it. *)
Section GroupByRows.
Context {K : Type} (keq kle : K -> K -> bool).
Hypothesis keq_spec : forall a b, keq a b = true <-> a = b.
Variable key : Transaction -> K.

Lemma groupby_keys (df : list Transaction) :
  map fst (groupby keq kle key df) = group_keys keq kle (map key df).
Proof.
  unfold groupby. rewrite map_map. simpl. apply map_id.
Qed.

Lemma groupby_In (df : list Transaction) (g : K * list Transaction) :
  In g (groupby keq kle key df) ->
  snd g = filter (fun r => keq (key r) (fst g)) df /\ snd g <> [].
Proof.
  unfold groupby. rewrite in_map_iff. intros (k & <- & Hk). simpl.
  split; [reflexivity|].
  apply group_keys_In in Hk; [|assumption].
  apply in_map_iff in Hk. destruct Hk as (r & <- & Hr).
  intros E.
  assert (Hin : In r (filter (fun r0 => keq (key r0) (key r)) df)).
  { apply filter_In. split; [assumption | now apply keq_spec]. }
  now rewrite E in Hin.
Qed.

Lemma groupby_nil : groupby keq kle key [] = [].
Proof. reflexivity. Qed.

Lemma groupby_Qsum (f : Transaction -> Q) (df : list Transaction) :
  Qsum (map (fun g => Qsum (map f (snd g))) (groupby keq kle key df))
  == Qsum (map f df).
Proof.
  unfold groupby. rewrite map_map. simpl.
  apply (Qsum_partition keq keq_spec).
  - now apply group_keys_NoDup.
  - intros r Hr. apply group_keys_In; [assumption|]. now apply in_map.
Qed.

Lemma groupby_Zsum (f : Transaction -> Z) (df : list Transaction) :
  Zsum (map (fun g => Zsum (map f (snd g))) (groupby keq kle key df))
  = Zsum (map f df).
Proof.
  unfold groupby. rewrite map_map. simpl.
  apply (Zsum_partition keq keq_spec).
  - now apply group_keys_NoDup.
  - intros r Hr. apply group_keys_In; [assumption|]. now apply in_map.
Qed.

Lemma groupby_count (df : list Transaction) :
  Zsum (map (fun g => Z.of_nat (List.length (snd g))) (groupby keq kle key df))
  = Z.of_nat (List.length df).
Proof.
  rewrite <- (Zsum_ones df), <- (groupby_Zsum (fun _ => 1%Z)).
  f_equal. apply map_ext. intros g. now rewrite Zsum_ones.
Qed.
End GroupByRows.

(** * The aggregation engine *)

Lemma sort_desc_perm {A : Type} (col : A -> Q) (l : list A) :
  Permutation (sort_desc col l) l.
Proof. apply sort_by_perm. Qed.

Lemma sort_desc_sorted {A : Type} (col : A -> Q) (l : list A) :
  StronglySorted (fun a b => col b <= col a) (sort_desc col l).
Proof.
  unfold sort_desc.
  pose proof (sort_by_sorted (fun a b => Qle_bool (col b) (col a))) as Hs.
  assert (Htot : forall a b : A,
             Qle_bool (col b) (col a) = true \/ Qle_bool (col a) (col b) = true).
  { intros a b. rewrite !Qle_bool_iff.
    destruct (Qlt_le_dec (col a) (col b)) as [H|H]; [right|left]; lra. }
  specialize (Hs Htot l).
  apply Sorted_StronglySorted in Hs.
  - induction Hs as [|x l' Hs' IH Hx]; constructor; [assumption|].
    rewrite Forall_forall in *. intros y Hy. apply Qle_bool_iff. now apply Hx.
  - intros a b c. rewrite !Qle_bool_iff. lra.
Qed.

Lemma completed_none (t : list Transaction) :
  (forall r, In r t -> status r <> Completed) -> filter is_completed t = [].
Proof.
  intros H. apply filter_none. intros r Hr.
  unfold is_completed. apply String.eqb_neq. now apply H.
Qed.

(** C7.  On the empty transaction collection [calculate_kpis] raises
    [ZeroDivisionError] at the conversion rate: the division-by-zero
    condition is signalled, no value is returned. *)
Theorem calculate_kpis_empty :
  calculate_kpis [] = Raise ZeroDivisionError /\
  signals ZeroDivisionError DivisionByZero = true.
Proof. split; reflexivity. Qed.

Lemma calculate_kpis_returns (t : list Transaction) :
  t <> [] ->
  calculate_kpis t =
  Ok {| total_revenue := Qsum (map total_amount (filter is_completed t));
        total_transactions := Z.of_nat (List.length (filter is_completed t));
        avg_order_value := series_mean (map total_amount (filter is_completed t));
        total_customers := Z.of_nat (List.length (unique (map customer_id t)));
        total_products_sold := Zsum (map quantity (filter is_completed t));
        conversion_rate :=
          inject_Z (Z.of_nat (List.length (filter is_completed t)))
          / inject_Z (Z.of_nat (List.length t)) * 100 |}.
Proof.
  intros Ht. unfold calculate_kpis, py_truediv.
  destruct (Z.eqb_spec (Z.of_nat (List.length t)) 0) as [E|E]; [|reflexivity].
  destruct t; [congruence | simpl in E; lia].
Qed.

(** The scenario of the specification: three Completed sales of 100, 200
    and 300 and one cancelled attempt. *)
Example calculate_kpis_sample :
  exists k, calculate_kpis sample_table = Ok k /\
            total_revenue k == 600 /\
            total_transactions k = 3%Z /\
            avg_order_value k = Fin (600 # 3) /\
            conversion_rate k == 75.
Proof. eexists. repeat split. Qed.

Example sales_by_category_sample :
  map (fun s => (cs_category s, cs_revenue s, cs_transactions s))
      (sales_by_category sample_table)
  = [("Livres", 400, 2%Z); ("Vêtements", 200, 1%Z)].
Proof. reflexivity. Qed.

Example top_products_sample :
  map (fun s => (ps_product s, ps_category s, ps_revenue s))
      (top_products sample_table 1)
  = [("BD", "Livres", 300)].
Proof. reflexivity. Qed.

(** C10.  On a collection without Completed rows (the empty one included)
    the three grouped views are empty tables; nothing is raised and the
    percentage division is never evaluated. *)
Theorem grouped_views_empty (t : list Transaction) :
  (forall r, In r t -> status r <> Completed) ->
  sales_by_category t = [] /\
  sales_by_region t = [] /\
  payment_method_analysis t = [].
Proof.
  intros H.
  unfold sales_by_category, sales_by_region, payment_method_analysis.
  rewrite (completed_none t H). repeat split; reflexivity.
Qed.

Lemma grouped_views_empty_cancelled :
  (forall r, In r cancelled_table -> status r <> Completed) /\
  sales_by_category cancelled_table = [] /\
  sales_by_region cancelled_table = [] /\
  payment_method_analysis cancelled_table = [].
Proof.
  assert (H : forall r, In r cancelled_table -> status r <> Completed).
  { intros r [<-|[<-|[]]]; discriminate. }
  split; [exact H|].
  exact (grouped_views_empty cancelled_table H).
Defined.

Lemma completed_count_pos (t : list Transaction) :
  (exists r, In r t /\ status r = Completed) ->
  (0 < Z.of_nat (List.length (filter is_completed t)))%Z.
Proof.
  intros (r & Hr & Hs).
  assert (Hin : In r (filter is_completed t)).
  { apply filter_In. split; [assumption | now apply is_completed_spec]. }
  destruct (filter is_completed t); [contradiction | simpl; lia].
Qed.

Lemma Qsum_map_scale {X : Type} (f : X -> Q) (c : Q) (l : list X) :
  Qsum (map (fun x => f x * c) l) == Qsum (map f l) * c.
Proof.
  induction l as [|x l IH]; simpl; [ring|]. rewrite IH. ring.
Qed.

(** C6.  With at least one Completed row, every percentage of
    [payment_method_analysis] is the finite number
    [count / completed count * 100], where [count] is the number of
    Completed rows paid with that method, and the percentages sum to 100
    (within 0.01). *)
Theorem payment_percentages_sum (t : list Transaction) :
  (exists r, In r t /\ status r = Completed) ->
  let total := Z.of_nat (List.length (filter is_completed t)) in
  exists ps : list Q,
    map pm_percentage (payment_method_analysis t) = map Fin ps /\
    Qabs (Qsum ps - 100) <= 1 # 100 /\
    forall s, In s (payment_method_analysis t) ->
      pm_transactions s =
        Z.of_nat (List.length
          (filter (fun r => is_completed r && (payment_method r =? pm_payment_method s)) t)) /\
      pm_percentage s = Fin (inject_Z (pm_transactions s) / inject_Z total * 100).
Proof.
  intros Hex total.
  pose proof (completed_count_pos t Hex) as Hpos. fold total in Hpos.
  unfold payment_method_analysis.
  set (completed := filter is_completed t).
  set (groups := groupby String.eqb String.leb payment_method completed).
  set (stats := map (fun g => (fst g, Qsum (map total_amount (snd g)),
                               Z.of_nat (List.length (snd g)))) groups).
  assert (Htot : Zsum (map snd stats) = total).
  { unfold stats. rewrite map_map. cbn [snd].
    apply (groupby_count _ _ String.eqb_eq). }
  rewrite Htot.
  set (mk := fun s : string * Q * Z =>
               {| pm_payment_method := fst (fst s);
                  pm_revenue := snd (fst s);
                  pm_transactions := snd s;
                  pm_percentage := np_scale (np_truediv (snd s) total) 100 |}).
  assert (Hpct : forall s, pm_percentage (mk s)
                           = Fin (inject_Z (pm_transactions (mk s)) / inject_Z total * 100)).
  { intros s. unfold mk, np_truediv. cbn [pm_percentage pm_transactions].
    destruct (Z.eqb_spec total 0) as [E|E]; [lia | reflexivity]. }
  assert (Hall : forall s, In s (sort_desc pm_revenue (map mk stats)) ->
                           exists g, In g groups /\
                                     s = mk (fst g, Qsum (map total_amount (snd g)),
                                             Z.of_nat (List.length (snd g)))).
  { intros s Hs. apply (Permutation_in _ (sort_desc_perm _ _)) in Hs.
    apply in_map_iff in Hs. destruct Hs as (x & <- & Hx).
    unfold stats in Hx. apply in_map_iff in Hx. destruct Hx as (g & <- & Hg).
    now exists g. }
  exists (map (fun s => inject_Z (pm_transactions s) / inject_Z total * 100)
              (sort_desc pm_revenue (map mk stats))).
  split; [|split].
  - rewrite !map_map. apply map_ext_in. intros s Hs.
    destruct (Hall s Hs) as (g & _ & ->). apply Hpct.
  - assert (E : Qsum (map (fun s => inject_Z (pm_transactions s) / inject_Z total * 100)
                          (sort_desc pm_revenue (map mk stats))) == 100).
    { rewrite (Qsum_perm _ _ (Permutation_map _ (sort_desc_perm _ _))).
      rewrite map_map. cbn [pm_transactions mk].
      rewrite (Qsum_map_scale (fun x => inject_Z (snd x) / inject_Z total)).
      unfold Qdiv.
      rewrite (Qsum_map_scale (fun x => inject_Z (snd x))).
      rewrite <- (map_map snd inject_Z), Qsum_inject_Z, Htot.
      field. intros F. apply (inject_Z_injective total 0) in F. lia. }
    rewrite E. apply Qabs_case; intros; lra.
  - intros s Hs. destruct (Hall s Hs) as (g & Hg & ->).
    split; [|apply Hpct].
    cbn [pm_transactions pm_payment_method mk fst snd].
    destruct (groupby_In _ _ String.eqb_eq _ _ _ Hg) as [-> _].
    unfold completed. now rewrite filter_and.
Qed.

Lemma payment_percentages_sum_sample :
  (exists r, In r sample_table /\ status r = Completed) /\
  exists ps : list Q,
    map pm_percentage (payment_method_analysis sample_table) = map Fin ps /\
    Qabs (Qsum ps - 100) <= 1 # 100.
Proof.
  assert (H : exists r, In r sample_table /\ status r = Completed).
  { eexists. split; [left; reflexivity | reflexivity]. }
  split; [exact H|].
  destruct (payment_percentages_sum sample_table H) as (ps & Hp & Hs & _).
  exists ps. now split.
Defined.

Lemma head_firstn {A : Type} (n : Z) (l : list A) :
  (0 < n)%Z -> head n l = firstn (Z.to_nat n) l.
Proof.
  intros Hn. unfold head. destruct (Z.leb_spec 0 n); [reflexivity | lia].
Qed.

(** C5.  For positive [n], [top_products t n] has at most [n] rows (as
    many as there are distinct (product, category) pairs among the
    Completed rows, when these are fewer), its revenue column is
    non-increasing, its (product, category) pairs are pairwise distinct,
    and each row aggregates the Completed rows of its pair. *)
Theorem top_products_spec (t : list Transaction) (n : Z) :
  (0 < n)%Z ->
  let res := top_products t n in
  let pairs := map (fun r => (product r, category r)) (filter is_completed t) in
  (List.length res <= Z.to_nat n)%nat /\
  List.length res = Nat.min (Z.to_nat n) (List.length (unique_by pair_eqb pairs)) /\
  StronglySorted (fun a b => ps_revenue b <= ps_revenue a) res /\
  NoDup (map (fun s => (ps_product s, ps_category s)) res) /\
  forall s, In s res ->
    let g := filter (fun r => is_completed r &&
                              ((product r =? ps_product s) && (category r =? ps_category s)))
                    t in
    g <> [] /\
    ps_revenue s = Qsum (map total_amount g) /\
    ps_units_sold s = Zsum (map quantity g) /\
    ps_orders s = Z.of_nat (List.length g).
Proof.
  intros Hn res pairs. subst res. unfold top_products.
  rewrite (head_firstn _ _ Hn).
  set (completed := filter is_completed t).
  set (key := fun r : Transaction => (product r, category r)).
  set (groups := groupby pair_eqb pair_leb key completed).
  set (mk := fun g : string * string * list Transaction =>
               {| ps_product := fst (fst g);
                  ps_category := snd (fst g);
                  ps_revenue := Qsum (map total_amount (snd g));
                  ps_units_sold := Zsum (map quantity (snd g));
                  ps_orders := Z.of_nat (List.length (snd g)) |}).
  set (sorted := sort_desc ps_revenue (map mk groups)).
  assert (Hperm : Permutation sorted (map mk groups)) by apply sort_desc_perm.
  assert (Hkeys : map (fun s => (ps_product s, ps_category s)) (map mk groups)
                  = group_keys pair_eqb pair_leb pairs).
  { rewrite map_map. cbn [ps_product ps_category mk].
    transitivity (map fst groups);
      [| apply (groupby_keys pair_eqb pair_leb key completed)].
    apply map_ext. now intros [[p c] g]. }
  split; [apply firstn_le_length|].
  split.
  { rewrite length_firstn. f_equal.
    rewrite (Permutation_length Hperm), length_map.
    unfold groups, groupby. rewrite length_map. apply group_keys_length. }
  split; [apply StronglySorted_firstn, sort_desc_sorted|].
  split.
  { rewrite <- firstn_map. apply NoDup_firstn.
    apply (Permutation_NoDup
             (l := map (fun s => (ps_product s, ps_category s)) (map mk groups))).
    - symmetry. now apply Permutation_map.
    - rewrite Hkeys. apply group_keys_NoDup, pair_eqb_spec. }
  intros s Hs. apply firstn_In in Hs.
  apply (Permutation_in _ Hperm) in Hs.
  apply in_map_iff in Hs. destruct Hs as (g & <- & Hg).
  destruct (groupby_In _ _ pair_eqb_spec _ _ _ Hg) as [Eg Hne].
  cbn [ps_product ps_category ps_revenue ps_units_sold ps_orders mk].
  cbn zeta.
  assert (E : snd g = filter (fun r => is_completed r &&
                 ((product r =? fst (fst g)) && (category r =? snd (fst g)))) t).
  { rewrite Eg. unfold completed. rewrite filter_and. reflexivity. }
  rewrite <- E. now repeat split.
Qed.

Lemma top_products_spec_sample :
  (0 < 1)%Z /\
  (List.length (top_products sample_table 1) <= 1)%nat /\
  StronglySorted (fun a b => ps_revenue b <= ps_revenue a)
                 (top_products sample_table 1).
Proof.
  assert (H : (0 < 1)%Z) by reflexivity.
  split; [exact H|].
  destruct (top_products_spec sample_table 1 H) as (Hlen & _ & Hs & _).
  split; [exact Hlen | exact Hs].
Defined.

(** * Rounding *)

Lemma round_half_even_comp (x y : Q) :
  x == y -> round_half_even x = round_half_even y.
Proof.
  intros E. unfold round_half_even.
  rewrite (Qfloor_comp x y E).
  assert (C : Qcompare (x - inject_Z (Qfloor y)) (1 # 2)
              = Qcompare (y - inject_Z (Qfloor y)) (1 # 2)).
  { apply Qcompare_comp; [now rewrite E | reflexivity]. }
  now rewrite C.
Qed.

Lemma round_half_even_Z (z : Z) : round_half_even (inject_Z z) = z.
Proof.
  unfold round_half_even. rewrite Qfloor_Z.
  assert (C : Qcompare (inject_Z z - inject_Z z) (1 # 2) = Lt).
  { apply Qlt_alt. setoid_replace (inject_Z z - inject_Z z) with 0 by ring.
    reflexivity. }
  now rewrite C.
Qed.

Lemma round_half_even_lower (z : Z) (q : Q) :
  inject_Z z <= q -> (z <= round_half_even q)%Z.
Proof.
  intros H. apply Qfloor_resp_le in H. rewrite Qfloor_Z in H.
  unfold round_half_even.
  destruct (Qcompare (q - inject_Z (Qfloor q)) (1 # 2)); [|lia|lia].
  destruct (Z.even (Qfloor q)); lia.
Qed.

Lemma round2_whole_cents (q : Q) : whole_cents q -> round2 q == q.
Proof.
  intros [z Hz]. unfold round2.
  rewrite (round_half_even_comp (q * 100) (inject_Z z)).
  - rewrite round_half_even_Z. now symmetry.
  - rewrite Hz. field.
Qed.

Lemma Qdiv_100 (a : Q) : a / 100 = a * (1 # 100).
Proof. reflexivity. Qed.

Lemma round2_lower (z : Z) (q : Q) :
  inject_Z z / 100 <= q -> inject_Z z / 100 <= round2 q.
Proof.
  intros H. unfold round2. rewrite !Qdiv_100 in *.
  assert (L : inject_Z z <= q * 100).
  { revert H. generalize (inject_Z z). intros a H. lra. }
  apply round_half_even_lower in L.
  rewrite Zle_Qle in L. revert L.
  generalize (inject_Z (round_half_even (q * 100))), (inject_Z z).
  intros a b L. lra.
Qed.

(** * Customers *)


Lemma series_min_spec (l : list Z) :
  l <> [] ->
  exists d, series_min l = Some d /\ In d l /\ forall x, In x l -> (d <= x)%Z.
Proof.
  induction l as [|x l IH]; [congruence|]. intros _.
  destruct l as [|y l].
  - exists x. simpl. repeat split; [now left|]. intros z [<-|[]]. lia.
  - destruct IH as (m & Hm & Hin & Hle); [discriminate|].
    exists (Z.min x m). cbn [series_min] in *. rewrite Hm.
    split; [reflexivity|]. split.
    + destruct (Z.min_spec x m) as [[_ ->]|[_ ->]]; [now left | now right].
    + intros z [<-|Hz]; [lia|]. specialize (Hle z Hz). lia.
Qed.

Lemma completed_spend_filter (cid : string) (t : list Transaction) :
  Qsum (map total_amount
         (filter (fun r => (customer_id r =? cid) && (status r =? Completed)) t))
  = completed_spend cid t.
Proof.
  induction t as [|r t IH]; simpl; [reflexivity|].
  destruct ((customer_id r =? cid) && (status r =? Completed)); simpl;
    now rewrite IH.
Qed.

Lemma count_occ_filter (cid : string) (t : list Transaction) :
  List.length (filter (fun r => customer_id r =? cid) t)
  = count_occ string_dec (map customer_id t) cid.
Proof.
  induction t as [|r t IH]; simpl; [reflexivity|].
  destruct (string_dec (customer_id r) cid) as [E|E].
  - rewrite (proj2 (String.eqb_eq _ _) E). simpl. now rewrite IH.
  - rewrite (proj2 (String.eqb_neq _ _) E). exact IH.
Qed.

(** The row [generate_customer_data] builds for each customer id. *)
Lemma generate_customer_data_In (t : list Transaction) (c : Customer) :
  In c (generate_customer_data t) ->
  In (c_customer_id c) (map customer_id t) /\
  first_purchase_date c =
    series_min (map date (filter (fun r => customer_id r =? c_customer_id c) t)) /\
  total_purchases c =
    Z.of_nat (List.length (filter (fun r => customer_id r =? c_customer_id c) t)) /\
  total_spent c = round2 (completed_spend (c_customer_id c) t) /\
  segment c =
    (if Qgt_bool (completed_spend (c_customer_id c) t) 2000 then "Premium"
     else if Qgt_bool (completed_spend (c_customer_id c) t) 500 then "Régulier"
     else "Occasionnel").
Proof.
  unfold generate_customer_data. rewrite in_map_iff.
  intros (cid & <- & Hcid). cbn [c_customer_id first_purchase_date
    total_purchases total_spent segment].
  apply (proj1 (unique_by_In String.eqb String.eqb_eq _ _)) in Hcid.
  rewrite completed_spend_filter. repeat split. assumption.
Qed.

(** C3.  [generate_customer_data] has exactly one row per distinct
    [customer_id] of its input; in that row [first_purchase_date] is the
    least date over all the customer's transactions, [total_purchases]
    counts all of them, and [total_spent] is the sum of [total_amount]
    over the Completed ones, rounded to two decimals. *)
Theorem generate_customer_data_spec (t : list Transaction) :
  NoDup (map c_customer_id (generate_customer_data t)) /\
  (forall cid, In cid (map c_customer_id (generate_customer_data t))
               <-> In cid (map customer_id t)) /\
  forall c, In c (generate_customer_data t) ->
    (exists d, first_purchase_date c = Some d /\
               (exists r, In r t /\ customer_id r = c_customer_id c /\ date r = d) /\
               (forall r, In r t -> customer_id r = c_customer_id c ->
                          (d <= date r)%Z)) /\
    total_purchases c
      = Z.of_nat (count_occ string_dec (map customer_id t) (c_customer_id c)) /\
    total_spent c = round2 (completed_spend (c_customer_id c) t).
Proof.
  assert (Hids : map c_customer_id (generate_customer_data t)
                 = unique (map customer_id t)).
  { unfold generate_customer_data. rewrite map_map. apply map_id. }
  split; [|split].
  - rewrite Hids. apply unique_by_NoDup, String.eqb_eq.
  - intros cid. rewrite Hids. apply unique_by_In, String.eqb_eq.
  - intros c Hc.
    destruct (generate_customer_data_In t c Hc) as (Hin & Hd & Hn & Hs & _).
    split; [|split; [now rewrite Hn, count_occ_filter | exact Hs]].
    set (mine := filter (fun r => customer_id r =? c_customer_id c) t) in *.
    assert (Hmine : forall r, In r mine <-> In r t /\ customer_id r = c_customer_id c).
    { intros r. unfold mine. rewrite filter_In, String.eqb_eq. tauto. }
    destruct (series_min_spec (map date mine)) as (d & Hmin & Hdin & Hle).
    { apply in_map_iff in Hin. destruct Hin as (r & Hr & Hrt).
      assert (Hm : In r mine) by now apply Hmine.
      destruct mine; [contradiction | discriminate]. }
    exists d. split; [now rewrite Hd|]. split.
    + apply in_map_iff in Hdin. destruct Hdin as (r & Hr & Hrm).
      apply Hmine in Hrm. exists r. tauto.
    + intros r Hr Hc'. apply Hle, in_map, Hmine. tauto.
Qed.

Lemma generate_customer_data_spec_sample :
  exists c, In c (generate_customer_data sample_table) /\
            c_customer_id c = "CUST_0001" /\
            total_purchases c = 3%Z /\
            total_spent c == 400.
Proof.
  destruct (generate_customer_data_spec sample_table) as (_ & _ & H).
  eexists. split; [left; reflexivity|].
  split; [reflexivity|].
  match goal with |- total_purchases ?c = _ /\ _ =>
    destruct (H c) as (_ & Hn & Hs); [left; reflexivity|] end.
  split; [rewrite Hn; reflexivity | rewrite Hs; reflexivity].
Defined.


(** * The generator *)

Lemma lcg_laws : RandomLaws lcg_source.
Proof.
  constructor; cbn [np_weighted_index py_random py_randbelow lcg_source fst].
  - intros p s Hp.
    assert (0 < Z.of_nat (List.length p))%Z by (destruct p; [congruence | simpl; lia]).
    pose proof (Z.mod_pos_bound (lcg s) (Z.of_nat (List.length p))). lia.
  - intros s. pose proof (Z.mod_pos_bound (lcg s) 1000).
    unfold Qle, Qlt. simpl. lia.
  - intros n s Hn. now apply Z.mod_pos_bound.
Defined.

Section ReturnsFacts.
Context {R : RandomSource}.

Lemma returns_ret {A} (a : A) (P : A -> Prop) : P a -> returns (ret a) P.
Proof. intros H s. now exists a, s. Qed.

Lemma returns_bind {A B} (m : M A) (f : A -> M B) (P : A -> Prop) (P' : B -> Prop) :
  returns m P -> (forall a, P a -> returns (f a) P') -> returns (bind m f) P'.
Proof.
  intros Hm Hf s. destruct (Hm s) as (a & s1 & E & Ha).
  destruct (Hf a Ha s1) as (b & s2 & E2 & Hb).
  exists b, s2. unfold bind. now rewrite E.
Qed.

Lemma returns_weaken {A} (m : M A) (P Q : A -> Prop) :
  returns m P -> (forall a, P a -> Q a) -> returns m Q.
Proof.
  intros Hm H s. destruct (Hm s) as (a & s1 & E & Ha). exists a, s1. auto.
Qed.

Lemma returns_lift {A} (a : A) : returns (lift (Ok a)) (eq a).
Proof. intros s. now exists a, s. Qed.

Lemma returns_with_py {A} (f : py_state -> A * py_state) (P : A -> Prop) :
  (forall s, P (fst (f s))) -> returns (with_py f) P.
Proof.
  intros H s. unfold with_py. specialize (H (snd s)).
  destruct (f (snd s)) as [a p']. now exists a, (fst s, p').
Qed.

Lemma returns_with_np {A} (f : np_state -> A * np_state) (P : A -> Prop) :
  (forall s, P (fst (f s))) -> returns (with_np f) P.
Proof.
  intros H s. unfold with_np. specialize (H (fst s)).
  destruct (f (fst s)) as [a n']. now exists a, (n', snd s).
Qed.

Lemma returns_getitem {A} (seq : list A) (i : nat) :
  (i < List.length seq)%nat -> returns (getitem seq i) (fun x => In x seq).
Proof.
  intros Hi. unfold getitem.
  destruct (nth_error seq i) as [x|] eqn:E.
  - apply returns_ret. now apply nth_error_In with i.
  - apply nth_error_None in E. lia.
Qed.

Lemma np_random_exponential_returns (scale : Q) :
  returns (np_random_exponential scale) (fun _ => True).
Proof. now apply returns_with_np. Qed.

Context {L : RandomLaws R}.

Lemma random_uniform_returns (a b : Q) :
  a <= b -> returns (random_uniform a b) (fun u => a <= u /\ u <= b).
Proof.
  intros Hab. unfold random_uniform.
  apply returns_bind with (P := fun u => 0 <= u /\ u < 1).
  - apply returns_with_py. apply py_random_range.
  - intros u [H0 H1]. apply returns_ret. split; nra.
Qed.

Lemma random_randint_returns (a b : Z) :
  (a <= b)%Z -> returns (random_randint a b) (fun k => (a <= k <= b)%Z).
Proof.
  intros Hab. unfold random_randint.
  destruct (Z.leb_spec (b - a + 1) 0); [lia|].
  apply returns_bind with (P := fun k => (0 <= k < b - a + 1)%Z).
  - apply returns_with_py. intros s. apply py_randbelow_range. lia.
  - intros k Hk. apply returns_ret. lia.
Qed.

Lemma random_choice_returns {A} (seq : list A) :
  seq <> [] -> returns (random_choice seq) (fun x => In x seq).
Proof.
  intros Hne. unfold random_choice. destruct seq as [|x0 seq0]; [congruence|].
  set (seq := x0 :: seq0) in *.
  apply returns_bind with (P := fun i => (0 <= i < Z.of_nat (List.length seq))%Z).
  - apply returns_with_py. intros s. apply py_randbelow_range.
    unfold seq. simpl. lia.
  - intros i Hi. apply returns_getitem. lia.
Qed.

Lemma np_random_choice_returns {A} (a : list A) (p : list Q) :
  List.length a = List.length p -> Qeq_bool (Qsum p) 1 = true -> a <> [] ->
  returns (np_random_choice a p) (fun x => In x a).
Proof.
  intros Hlen Hsum Hne. unfold np_random_choice.
  rewrite Hlen, Nat.eqb_refl, Hsum. cbn [negb orb].
  apply returns_bind with (P := fun i => (i < List.length a)%nat).
  - apply returns_with_np. intros s. rewrite Hlen.
    apply np_weighted_index_lt. destruct p; [|discriminate].
    destruct a; [congruence | discriminate].
  - intros i Hi. now apply returns_getitem.
Qed.

Lemma PRODUCTS_returns (c : string) :
  In c CATEGORIES -> exists l, PRODUCTS c = Ok l /\ l <> [].
Proof.
  intros [<-|[<-|[<-|[<-|[<-|[]]]]]]; eexists; (split; [reflexivity | discriminate]).
Qed.

Lemma generated_total_positive (base_price jitter : Q) (quantity : Z) :
  5 <= base_price -> 9 # 10 <= jitter -> (1 <= quantity)%Z ->
  0 < round2 (round2 (base_price * jitter) * inject_Z quantity).
Proof.
  intros Hb Hj Hq.
  assert (Hp : inject_Z 450 / 100 <= round2 (base_price * jitter)).
  { apply round2_lower. rewrite Qdiv_100.
    change (inject_Z 450 * (1 # 100)) with (450 # 100). nra. }
  assert (Ht : inject_Z 450 / 100
               <= round2 (round2 (base_price * jitter) * inject_Z quantity)).
  { apply round2_lower. rewrite Zle_Qle in Hq.
    revert Hp Hq. rewrite Qdiv_100.
    change (inject_Z 450 * (1 # 100)) with (450 # 100).
    generalize (round2 (base_price * jitter)), (inject_Z quantity).
    intros p q Hp Hq. change (inject_Z 1) with 1 in Hq. nra. }
  revert Ht. rewrite Qdiv_100.
  change (inject_Z 450 * (1 # 100)) with (450 # 100).
  generalize (round2 (round2 (base_price * jitter) * inject_Z quantity)).
  intros x Hx. lra.
Qed.

Lemma amount_matches_status_row (id cust cat prod reg pay st : string)
      (day qty : Z) (price total : Q) :
  0 < total ->
  amount_matches_status
    {| transaction_id := id; date := day; customer_id := cust;
       category := cat; product := prod; quantity := qty;
       unit_price := price;
       total_amount := if st =? Completed then total else 0;
       region := reg; payment_method := pay; status := st |}.
Proof.
  intros Ht. unfold amount_matches_status.
  cbn [total_amount status].
  destruct (String.eqb_spec st Completed) as [E|E].
  - repeat split; intros; try tauto; lra.
  - repeat split; intros; try tauto; try reflexivity.
Qed.

(** One iteration appends one row, and that row satisfies the invariant. *)
Lemma generate_row_returns (start_date i : Z) (data : list Transaction) :
  returns (generate_row start_date i data)
          (fun data' => exists r, data' = (data ++ [r])%list /\
                                  amount_matches_status r).
Proof.
  unfold generate_row.
  eapply returns_bind; [apply np_random_exponential_returns|]. intros e _.
  apply returns_bind with (P := fun _ => True).
  { destruct (py_int e >? 730)%Z.
    - eapply returns_weaken; [apply random_randint_returns; lia | auto].
    - now apply returns_ret. }
  intros days_offset _. cbv zeta.
  eapply returns_bind; [apply random_choice_returns; discriminate|].
  intros category Hcat.
  destruct (PRODUCTS_returns category Hcat) as (catalog & -> & Hcatalog).
  eapply returns_bind; [apply returns_lift|]. intros ? <-.
  eapply returns_bind; [now apply random_choice_returns|]. intros product _.
  apply returns_bind with (P := fun b => 5 <= b).
  { repeat match goal with |- returns (if ?c then _ else _) _ => destruct c end;
      (eapply returns_weaken;
       [apply random_uniform_returns; lra | cbv beta; intros; lra]). }
  intros base_price Hbase.
  eapply returns_bind;
    [apply np_random_choice_returns; [reflexivity | reflexivity | discriminate]|].
  intros quantity Hqty.
  eapply returns_bind; [apply random_uniform_returns; lra|].
  intros jitter [Hjit _].
  eapply returns_bind; [apply random_randint_returns; lia|]. intros k _.
  eapply returns_bind; [apply random_choice_returns; discriminate|].
  intros region _.
  eapply returns_bind; [apply random_choice_returns; discriminate|].
  intros payment _.
  eapply returns_bind;
    [apply np_random_choice_returns; [reflexivity | reflexivity | discriminate]|].
  intros status _.
  apply returns_ret. eexists. split; [reflexivity|].
  apply amount_matches_status_row, generated_total_positive; try assumption.
  simpl in Hqty. intuition lia.
Qed.

Lemma for_range_returns (body : Z -> list Transaction -> M (list Transaction))
      (P : Transaction -> Prop) :
  (forall i data,
      returns (body i data) (fun data' => exists r, data' = (data ++ [r])%list /\ P r)) ->
  forall k i data,
    returns (for_range k i body data)
            (fun data' => exists rs, data' = (data ++ rs)%list /\
                                     List.length rs = k /\ Forall P rs).
Proof.
  intros Hbody. induction k as [|k IH]; intros i data; cbn [for_range].
  - apply returns_ret. exists []. now rewrite app_nil_r.
  - eapply returns_bind; [apply Hbody|].
    intros data1 (r & -> & Hr).
    eapply returns_weaken; [apply IH|].
    intros data2 (rs & -> & Hlen & Hrs).
    exists (r :: rs). rewrite <- app_assoc. simpl.
    repeat split; [now rewrite Hlen | now constructor].
Qed.

Lemma generate_ecommerce_data_returns (today n : Z) :
  (0 < n)%Z ->
  returns (generate_ecommerce_data today n)
          (fun df => columns df = SCHEMA /\
                     List.length (rows df) = Z.to_nat n /\
                     Forall amount_matches_status (rows df)).
Proof.
  intros Hn. unfold generate_ecommerce_data. cbv zeta.
  eapply returns_bind; [apply for_range_returns, generate_row_returns|].
  intros data (rs & -> & Hlen & Hrs). simpl app.
  assert (E : sort_values_date (pd_DataFrame rs)
              = Ok {| columns := SCHEMA; rows := sort_by date_le rs |}).
  { destruct rs; [simpl in Hlen; lia | reflexivity]. }
  rewrite E. eapply returns_weaken; [apply returns_lift|].
  intros df <-. cbn [columns rows].
  split; [reflexivity|]. split; [now rewrite sort_by_length|].
  rewrite Forall_forall in *. intros r Hr. apply sort_by_In in Hr. now apply Hrs.
Qed.
End ReturnsFacts.

(** C1.  For positive [n], whatever the draws, [generate_ecommerce_data]
    returns a frame of [n] rows in each of which [total_amount] is 0
    exactly when [status] is not Completed; a Completed row has a
    strictly positive [total_amount]. *)
Theorem generated_amount_zero_iff_not_completed
        (R : RandomSource) (L : RandomLaws R) (today n : Z) (s : rng) :
  (0 < n)%Z ->
  exists df s',
    generate_ecommerce_data today n s = Ok (df, s') /\
    List.length (rows df) = Z.to_nat n /\
    forall r, In r (rows df) ->
      (total_amount r == 0 <-> status r <> Completed) /\
      (status r = Completed -> 0 < total_amount r).
Proof.
  intros Hn.
  destruct (generate_ecommerce_data_returns today n Hn s)
    as (df & s' & E & _ & Hlen & Hall).
  exists df, s'. repeat split; try assumption;
    rewrite Forall_forall in Hall; now apply Hall.
Qed.

Lemma generated_amount_zero_iff_not_completed_lcg :
  (0 < 6)%Z /\
  exists df s',
    @generate_ecommerce_data lcg_source 1000 6 (@seed_all lcg_source 42)
    = Ok (df, s') /\
    List.length (rows df) = 6%nat /\
    forall r, In r (rows df) ->
      (total_amount r == 0 <-> status r <> Completed) /\
      (status r = Completed -> 0 < total_amount r).
Proof.
  split; [reflexivity|].
  apply (generated_amount_zero_iff_not_completed lcg_source lcg_laws 1000 6).
  reflexivity.
Defined.

(** C8, as stated, fails: for [n = 0] the exception raised is the
    [KeyError] of the sort on the column-less empty frame, which is not an
    invalid-argument condition. *)
Lemma nonpositive_not_invalid_argument :
  ~ (forall (R : RandomSource) (today n : Z) (s : rng),
        (n <= 0)%Z ->
        exists e, generate_ecommerce_data today n s = Raise e /\
                  signals e InvalidArgument = true).
Proof.
  intros H.
  destruct (H lcg_source 1000%Z 0%Z (@seed_all lcg_source 42)) as (e & E & He);
    [lia|].
  vm_compute in E. inversion E; subst. discriminate.
Qed.

(** C8, amended.  For [n <= 0] the loop body never runs, no draw is made,
    [pd.DataFrame([])] has no columns and [sort_values('date')] raises
    [KeyError('date')]: the call fails instead of returning a dataset, but
    not by an argument check, and the exception signals none of the
    specification's error conditions. *)
Theorem generate_ecommerce_data_nonpositive
        (R : RandomSource) (today n : Z) (s : rng) :
  (n <= 0)%Z ->
  generate_ecommerce_data today n s = Raise (KeyError "date") /\
  forall c, signals (KeyError "date") c = false.
Proof.
  intros Hn. split; [|now intros []].
  unfold generate_ecommerce_data. cbv zeta.
  replace (Z.to_nat n) with 0%nat by lia. reflexivity.
Qed.

Lemma generate_ecommerce_data_nonpositive_lcg :
  (-3 <= 0)%Z /\
  @generate_ecommerce_data lcg_source 1000 (-3) (@seed_all lcg_source 42)
  = Raise (KeyError "date").
Proof.
  assert (H : (-3 <= 0)%Z) by discriminate.
  split; [exact H|].
  exact (proj1 (generate_ecommerce_data_nonpositive
                  lcg_source 1000 (-3) (@seed_all lcg_source 42) H)).
Defined.

(** * Reproducibility *)

Section ShiftFacts.
Context {R : RandomSource}.

Lemma bind_map_result {A B C} (m : M A) (k : A -> M B) (k' : A -> M C)
      (f : B -> C) (s : rng) :
  (forall a s', k' a s' = map_result f (k a s')) ->
  bind m k' s = map_result f (bind m k s).
Proof.
  intros H. unfold bind. destruct (m s) as [[a s']|e]; [apply H | reflexivity].
Qed.

Lemma generate_row_shift (start_date d i : Z) (data : list Transaction) (s : rng) :
  generate_row (start_date + d) i (map (shift_transaction d) data) s
  = map_result (map (shift_transaction d)) (generate_row start_date i data s).
Proof.
  unfold generate_row. cbv zeta.
  repeat (apply bind_map_result; intros).
  unfold ret, map_result. rewrite map_app. unfold shift_transaction at 3.
  cbn [map date transaction_id customer_id category product quantity
    unit_price total_amount region payment_method status].
  match goal with |- context [(start_date + d + ?x)%Z] =>
    replace (start_date + d + x)%Z with (start_date + x + d)%Z by lia end.
  reflexivity.
Qed.

Lemma for_range_shift (start_date d : Z) (k : nat) :
  forall (i : Z) (data : list Transaction) (s : rng),
    for_range k i (generate_row (start_date + d))
              (map (shift_transaction d) data) s
    = map_result (map (shift_transaction d))
                 (for_range k i (generate_row start_date) data s).
Proof.
  induction k as [|k IH]; intros i data s; cbn [for_range]; [reflexivity|].
  unfold bind. rewrite generate_row_shift.
  destruct (generate_row start_date i data s) as [[data1 s1]|e]; simpl;
    [apply IH | reflexivity].
Qed.

Lemma date_le_shift (d : Z) (a b : Transaction) :
  date_le (shift_transaction d a) (shift_transaction d b) = date_le a b.
Proof.
  unfold date_le. simpl.
  destruct (Z.leb_spec (date a) (date b)), (Z.leb_spec (date a + d) (date b + d));
    auto; lia.
Qed.

Lemma sort_values_date_cons (r : Transaction) (data : list Transaction) :
  sort_values_date (pd_DataFrame (r :: data))
  = Ok {| columns := SCHEMA; rows := sort_by date_le (r :: data) |}.
Proof. reflexivity. Qed.

Lemma sort_values_date_shift (d : Z) (data : list Transaction) :
  sort_values_date (pd_DataFrame (map (shift_transaction d) data))
  = match sort_values_date (pd_DataFrame data) with
    | Ok df => Ok (shift_frame d df)
    | Raise e => Raise e
    end.
Proof.
  destruct data as [|r data]; [reflexivity|].
  cbn [map]. rewrite !sort_values_date_cons.
  unfold shift_frame. cbn [columns rows]. do 2 f_equal.
  apply (sort_by_map date_le _ (date_le_shift d) (r :: data)).
Qed.

Lemma generate_ecommerce_data_shift (today d n : Z) (s : rng) :
  generate_ecommerce_data (today + d) n s
  = map_result (shift_frame d) (generate_ecommerce_data today n s).
Proof.
  unfold generate_ecommerce_data. cbv zeta.
  replace (today + d - 730)%Z with (today - 730 + d)%Z by lia.
  unfold bind.
  change (@nil Transaction) with (map (shift_transaction d) []) at 1.
  rewrite (for_range_shift (today - 730) d (Z.to_nat n) 0 [] s).
  destruct (for_range (Z.to_nat n) 0 (generate_row (today - 730)) [] s)
    as [[data s1]|e]; simpl; [|reflexivity].
  unfold lift. rewrite sort_values_date_shift.
  now destruct (sort_values_date (pd_DataFrame data)).
Qed.
End ShiftFacts.

Lemma filter_map_shift (d : Z) (p : Transaction -> bool) (t : list Transaction) :
  (forall r, p (shift_transaction d r) = p r) ->
  filter p (map (shift_transaction d) t) = map (shift_transaction d) (filter p t).
Proof.
  intros Hp. induction t as [|r t IH]; simpl; [reflexivity|].
  rewrite Hp. destruct (p r); simpl; now rewrite IH.
Qed.

Lemma series_min_shift (d : Z) (l : list Z) :
  series_min (map (fun x => (x + d)%Z) l)
  = option_map (fun x => (x + d)%Z) (series_min l).
Proof.
  induction l as [|x l IH]; [reflexivity|].
  cbn [map series_min]. rewrite IH.
  destruct (series_min l) as [m|]; simpl; [|reflexivity].
  now rewrite Z.add_min_distr_r.
Qed.

Lemma generate_customer_data_shift (d : Z) (t : list Transaction) :
  generate_customer_data (map (shift_transaction d) t)
  = map (shift_customer d) (generate_customer_data t).
Proof.
  unfold generate_customer_data. cbv zeta.
  rewrite !map_map. cbn [customer_id shift_transaction].
  apply map_ext. intros cid. unfold shift_customer.
  cbn [c_customer_id first_purchase_date total_purchases total_spent segment].
  rewrite !filter_map_shift by reflexivity.
  rewrite !map_map, length_map. cbn [date total_amount shift_transaction].
  rewrite <- series_min_shift, map_map. reflexivity.
Qed.

Lemma shift_transaction_0 (r : Transaction) : shift_transaction 0 r = r.
Proof. destruct r. unfold shift_transaction. simpl. now rewrite Z.add_0_r. Qed.

Lemma shift_customer_0 (c : Customer) : shift_customer 0 c = c.
Proof.
  destruct c as [cid [d|] n sp sg]; unfold shift_customer; simpl;
    [now rewrite Z.add_0_r | reflexivity].
Qed.

Lemma shift_tables_0 (r : result (DataFrame * list Customer)) :
  shift_tables 0 r = r.
Proof.
  destruct r as [[[cols rs] cs]|e]; [|reflexivity].
  unfold shift_tables, shift_frame. cbn [columns rows].
  rewrite (map_ext _ (fun x => x) shift_transaction_0), map_id.
  rewrite (map_ext _ (fun x => x) shift_customer_0), map_id.
  reflexivity.
Qed.

(** C9, as stated, fails: the seed and [n] do not determine the tables,
    the day of the run does too.  Seed 42, one transaction, two
    consecutive days. *)
Lemma same_seed_different_tables :
  ~ (forall (R : RandomSource) (seed n today1 today2 : Z),
        generate_tables seed today1 n = generate_tables seed today2 n).
Proof.
  intros H. specialize (H lcg_source 42%Z 1%Z 1000%Z 1001%Z).
  vm_compute in H. discriminate.
Qed.

(** The dependence on the clock is not particular to one source: with any
    source that obeys the laws, two runs of the same seed and positive
    [n] on different days differ. *)
Lemma generate_tables_clock_dependent
      (R : RandomSource) (L : RandomLaws R) (seed today n d : Z) :
  (0 < n)%Z -> d <> 0%Z ->
  generate_tables seed (today + d) n <> generate_tables seed today n.
Proof.
  intros Hn Hd. unfold generate_tables. rewrite generate_ecommerce_data_shift.
  destruct (generate_ecommerce_data_returns today n Hn (seed_all seed))
    as (df & s' & -> & _ & Hlen & _).
  cbn [map_result]. intros E. inversion E as [[Edf Ecs]]. clear E Ecs.
  destruct df as [cols [|r rs]]; cbn [rows] in *; [simpl in Hlen; lia|].
  unfold shift_frame in Edf. cbn [rows columns map] in Edf.
  inversion Edf as [Er].
  apply (f_equal date) in Er. simpl in Er. lia.
Qed.

(** C9, amended.  With the same seed and the same [n], a run made [d]
    days later fails in the same way or returns the same two tables with
    every date moved by [d] days, rows in the same order; in particular
    two runs on the same day ([d = 0]) return identical tables. *)
Theorem generate_tables_shift (R : RandomSource) (seed today n d : Z) :
  generate_tables seed (today + d) n
  = shift_tables d (generate_tables seed today n) /\
  shift_tables 0 (generate_tables seed today n) = generate_tables seed today n.
Proof.
  split; [|apply shift_tables_0].
  unfold generate_tables. rewrite generate_ecommerce_data_shift.
  destruct (generate_ecommerce_data today n (seed_all seed)) as [[df s]|e];
    [|reflexivity].
  unfold map_result, shift_tables. f_equal. f_equal.
  unfold shift_frame. cbn [rows]. apply generate_customer_data_shift.
Qed.

(** * Binary64 rounding *)



Lemma round_half_even_upper (z : Z) (q : Q) :
  q <= inject_Z z -> (round_half_even q <= z)%Z.
Proof.
  intros H. pose proof (Qfloor_resp_le _ _ H) as Hf. rewrite Qfloor_Z in Hf.
  unfold round_half_even.
  destruct (Z.eq_dec (Qfloor q) z) as [E|E].
  - assert (C : Qcompare (q - inject_Z (Qfloor q)) (1 # 2) = Lt).
    { apply (proj1 (Qlt_alt _ _)). rewrite E. revert H.
      generalize (inject_Z z). intros a H. lra. }
    now rewrite C.
  - destruct (Qcompare (q - inject_Z (Qfloor q)) (1 # 2)); [|lia|lia].
    destruct (Z.even (Qfloor q)); lia.
Qed.








Lemma round2_upper (z : Z) (q : Q) :
  q <= inject_Z z / 100 -> round2 q <= inject_Z z / 100.
Proof.
  intros H. unfold round2. rewrite !Qdiv_100 in *.
  assert (U : q * 100 <= inject_Z z).
  { revert H. generalize (inject_Z z). intros a H. lra. }
  apply round_half_even_upper in U.
  rewrite Zle_Qle in U. revert U.
  generalize (inject_Z (round_half_even (q * 100))), (inject_Z z).
  intros a b U. lra.
Qed.



(** * The customer table and the engine over a float arithmetic *)

Lemma generate_customer_data_in_exact (t : list Transaction) :
  generate_customer_data_in exact t = generate_customer_data t.
Proof. reflexivity. Qed.

Lemma sales_by_category_in_exact (t : list Transaction) :
  sales_by_category_in exact t = sales_by_category t.
Proof. reflexivity. Qed.

Lemma calculate_kpis_in_exact (t : list Transaction) :
  calculate_kpis_in exact t = calculate_kpis t.
Proof.
  unfold calculate_kpis_in, calculate_kpis, py_truediv.
  destruct (Z.of_nat (List.length t) =? 0)%Z; [reflexivity|].
  cbn [exact f_sum f_div f_mul]. unfold series_mean.
  destruct (filter is_completed t) as [|r l]; [reflexivity|].
  cbn [map List.length]. now rewrite length_map.
Qed.


(** The customer of the 500 table under the two arithmetics. *)
Example boundary_500_binary64 :
  map (fun c => (segment c, total_spent c))
      (generate_customer_data_in binary64 boundary_500_table)
  = [("Régulier", 500)].
Proof. vm_compute. reflexivity. Qed.

Example boundary_2000_binary64 :
  map (fun c => (segment c, total_spent c))
      (generate_customer_data_in binary64 boundary_2000_table)
  = [("Premium", 2000)].
Proof. vm_compute. reflexivity. Qed.

Example boundary_500_sum :
  np_sum64 (map total_amount boundary_500_table)
  = 8796093022208001 # 17592186044416.
Proof. vm_compute. reflexivity. Qed.




(** * Grouping is a partition of the rows *)

Lemma filter_or_perm {X : Type} (p q : X -> bool) (l : list X) :
  (forall x, In x l -> p x = true -> q x = false) ->
  Permutation (filter (fun x => p x || q x) l) (filter p l ++ filter q l).
Proof.
  induction l as [|x l IH]; intros H; simpl; [constructor|].
  assert (IH' := IH (fun y Hy => H y (or_intror Hy))).
  destruct (p x) eqn:Ep; simpl.
  - rewrite (H x (or_introl eq_refl) Ep). now constructor.
  - destruct (q x); [|exact IH'].
    rewrite IH'. apply Permutation_middle.
Qed.

Section PartitionRows.
Context {X K : Type} (keq : K -> K -> bool).
Hypothesis keq_spec : forall a b, keq a b = true <-> a = b.
Variable key : X -> K.

Lemma groups_select (ks : list K) (l : list X) :
  NoDup ks ->
  Permutation (List.concat (map (fun k => filter (fun x => keq (key x) k) l) ks))
              (filter (fun x => existsb (keq (key x)) ks) l).
Proof.
  induction 1 as [|k ks Hk Hnd IH]; cbn [map List.concat existsb].
  - rewrite (filter_none (fun _ => false)); [constructor | reflexivity].
  - rewrite IH. symmetry. apply filter_or_perm.
    intros x _ Hx. apply keq_spec in Hx.
    destruct (existsb (keq (key x)) ks) eqn:E; [|reflexivity].
    apply existsb_exists in E. destruct E as (k' & Hk' & E).
    apply keq_spec in E. subst. contradiction.
Qed.

Lemma groups_partition (ks : list K) (l : list X) :
  NoDup ks -> (forall x, In x l -> In (key x) ks) ->
  Permutation (List.concat (map (fun k => filter (fun x => keq (key x) k) l) ks)) l.
Proof.
  intros Hnd Hin. rewrite (groups_select ks l Hnd).
  replace (filter (fun x => existsb (keq (key x)) ks) l) with l; [reflexivity|].
  symmetry. apply forallb_filter_id. apply forallb_forall. intros x Hx.
  apply existsb_exists. exists (key x). split; [now apply Hin | now apply keq_spec].
Qed.
End PartitionRows.

Lemma groupby_partition (df : list Transaction) :
  Permutation (List.concat (map snd (groupby String.eqb String.leb category df))) df.
Proof.
  unfold groupby. rewrite map_map. cbn [snd].
  apply (groups_partition String.eqb String.eqb_eq).
  - apply group_keys_NoDup, String.eqb_eq.
  - intros r Hr. apply group_keys_In; [apply String.eqb_eq | now apply in_map].
Qed.

Lemma Qsum_concat (gs : list (list Q)) : Qsum (map Qsum gs) == Qsum (List.concat gs).
Proof.
  induction gs as [|g gs IH]; simpl; [reflexivity|].
  rewrite IH. clear IH. induction g as [|x g IHg]; simpl; [ring|].
  rewrite <- IHg. ring.
Qed.

(** The sums of the revenue table under binary64. *)
Example revenue_table_binary64 :
  exists k, calculate_kpis_in binary64 revenue_table = Ok k /\
            total_revenue k = 1182194902184755 # 281474976710656 /\
            map cs_revenue (sales_by_category_in binary64 revenue_table)
            = [7 # 2; 3152519739159347 # 4503599627370496] /\
            np_sum64 (map cs_revenue (sales_by_category_in binary64 revenue_table))
            = 4728779608739021 # 1125899906842624.
Proof. eexists. repeat split; vm_compute; reflexivity. Qed.

(** C2, as stated, fails: with Completed sales of 0.70 (Livres), 2.90 and
    0.60 (Vêtements), [total_revenue] is (0.7 + 2.9) + 0.6 =
    4.199999999999999 while the revenue column sums to 3.5 + 0.7 = 4.2. *)
Lemma revenue_sums_differ :
  ~ (forall t, revenue_reconciles binary64 t).
Proof.
  intros H. specialize (H revenue_table _ eq_refl).
  vm_compute in H. discriminate.
Qed.

(** C2, amended.  For every non-empty collection [calculate_kpis] returns
    and the transactions column of [sales_by_category] sums exactly to
    [total_transactions].  The revenue column holds the per-category sums
    of groups that partition the Completed rows, and [total_revenue] is
    the sum over all Completed rows: the two add the same amounts, and
    are equal whenever addition does not depend on order and grouping
    (exact arithmetic), which binary64 addition does not guarantee. *)
Theorem revenue_groups_partition (F : FloatArith) (t : list Transaction) :
  t <> [] ->
  exists k,
    calculate_kpis_in F t = Ok k /\
    Zsum (map cs_transactions (sales_by_category_in F t)) = total_transactions k /\
    total_revenue k = f_sum F (map total_amount (filter is_completed t)) /\
    (exists groups : list (list Transaction),
        Permutation (List.concat groups) (filter is_completed t) /\
        Permutation (map cs_revenue (sales_by_category_in F t))
                    (map (fun g => f_group_sum F (map total_amount g)) groups)) /\
    ((forall l l', Permutation l l' -> f_sum F l == f_sum F l') ->
     (forall gs, f_sum F (map (f_group_sum F) gs) == f_sum F (List.concat gs)) ->
     f_sum F (map cs_revenue (sales_by_category_in F t)) == total_revenue k).
Proof.
  intros Ht. unfold calculate_kpis_in.
  destruct (Z.eqb_spec (Z.of_nat (List.length t)) 0) as [E|_].
  { destruct t; [congruence | simpl in E; lia]. }
  eexists. split; [reflexivity|]. cbn [total_transactions total_revenue].
  set (completed := filter is_completed t).
  set (groups := groupby String.eqb String.leb category completed).
  assert (Hrev : Permutation (map cs_revenue (sales_by_category_in F t))
                   (map (fun g => f_group_sum F (map total_amount g))
                        (map snd groups))).
  { unfold sales_by_category_in. fold completed. fold groups.
    rewrite (Permutation_map cs_revenue (sort_desc_perm _ _)).
    rewrite !map_map. cbn [cs_revenue]. reflexivity. }
  split; [|split; [reflexivity|split]].
  - unfold sales_by_category_in. fold completed.
    rewrite (Zsum_perm _ _ (Permutation_map cs_transactions (sort_desc_perm _ _))).
    rewrite map_map. cbn [cs_transactions].
    apply (groupby_count _ _ String.eqb_eq).
  - exists (map snd groups). split; [apply groupby_partition | exact Hrev].
  - intros Hperm Hconcat.
    rewrite (Hperm _ _ Hrev).
    rewrite <- (map_map (map total_amount) (f_group_sum F)), Hconcat.
    rewrite <- concat_map. apply Hperm, Permutation_map, groupby_partition.
Qed.

Lemma revenue_groups_partition_sample :
  sample_table <> [] /\
  exists k,
    calculate_kpis_in exact sample_table = Ok k /\
    Zsum (map cs_transactions (sales_by_category_in exact sample_table))
    = total_transactions k /\
    Qsum (map cs_revenue (sales_by_category_in exact sample_table))
    == total_revenue k.
Proof.
  assert (H : sample_table <> []) by discriminate.
  split; [exact H|].
  destruct (revenue_groups_partition exact sample_table H)
    as (k & Ek & Hn & _ & _ & Hr).
  exists k. split; [exact Ek|]. split; [exact Hn|].
  apply Hr; [exact Qsum_perm | exact Qsum_concat].
Defined.

(** * The generated rows, field by field *)

Section GeneratedRowFacts.
Context {R : RandomSource} {L : RandomLaws R}.

Lemma base_price_returns (category : string) :
  In category CATEGORIES ->
  returns (if category =? "Électronique" then random_uniform 50 1200
           else if category =? "Vêtements" then random_uniform 15 150
           else if category =? "Maison & Jardin" then random_uniform 10 300
           else if category =? "Sports & Loisirs" then random_uniform 10 500
           else random_uniform 5 50)
          (fun base_price =>
             (category = "Électronique" /\ 50 <= base_price /\ base_price <= 1200) \/
             (category = "Vêtements" /\ 15 <= base_price /\ base_price <= 150) \/
             (category = "Maison & Jardin" /\ 10 <= base_price /\ base_price <= 300) \/
             (category = "Sports & Loisirs" /\ 10 <= base_price /\ base_price <= 500) \/
             (category = "Livres" /\ 5 <= base_price /\ base_price <= 50)).
Proof.
  intros [<-|[<-|[<-|[<-|[<-|[]]]]]]; cbn;
    (eapply returns_weaken; [apply random_uniform_returns; lra|]);
    cbv beta; intros b Hb.
  - left. now split.
  - right; left. now split.
  - do 2 right; left. now split.
  - do 3 right; left. now split.
  - do 4 right. now split.
Qed.

Lemma generate_row_returns_full (start_date i : Z) (data : list Transaction) :
  returns (generate_row start_date i data)
          (fun data' => exists r, data' = (data ++ [r])%list /\
                                  generated_row start_date i r).
Proof.
  unfold generate_row.
  apply returns_bind with (P := fun e => exists s, e = fst (np_exponential 200 s)).
  { apply returns_with_np. intros s. now exists s. }
  intros e He.
  apply returns_bind
    with (P := fun offset => (offset <= 730)%Z /\
                 ((0 <= offset)%Z \/
                  exists s, offset = py_int (fst (np_exponential 200 s)))).
  { cbv zeta. destruct (Z.gtb_spec (py_int e) 730).
    - eapply returns_weaken; [apply random_randint_returns; lia|].
      cbv beta. intros k Hk. split; [lia | left; lia].
    - apply returns_ret. split; [lia|]. right.
      destruct He as [s ->]. now exists s. }
  intros days_offset Hoff. cbv zeta.
  eapply returns_bind; [apply random_choice_returns; discriminate|].
  intros cat Hcat.
  destruct (PRODUCTS_returns cat Hcat) as (catalog & Ecat & Hcatalog).
  rewrite Ecat.
  eapply returns_bind; [apply returns_lift|]. intros ? <-.
  eapply returns_bind; [now apply random_choice_returns|]. intros prod Hprod.
  eapply returns_bind; [now apply base_price_returns|].
  intros base_price Hbase.
  eapply returns_bind;
    [apply np_random_choice_returns; [reflexivity | reflexivity | discriminate]|].
  intros qty Hqty.
  eapply returns_bind; [apply random_uniform_returns; lra|].
  intros jitter [Hj1 Hj2].
  eapply returns_bind; [apply random_randint_returns; lia|]. intros k Hk.
  eapply returns_bind; [apply random_choice_returns; discriminate|].
  intros reg Hreg.
  eapply returns_bind; [apply random_choice_returns; discriminate|].
  intros pay Hpay.
  eapply returns_bind;
    [apply np_random_choice_returns; [reflexivity | reflexivity | discriminate]|].
  intros st Hst.
  apply returns_ret. eexists. split; [reflexivity|].
  constructor; cbn [transaction_id date customer_id category product quantity
                    unit_price total_amount region payment_method status];
    try assumption; try reflexivity.
  - now exists days_offset.
  - now exists k.
  - now exists catalog.
  - simpl in Hqty. intuition lia.
  - now exists base_price, jitter.
Qed.

Lemma for_range_returns_indexed
      (body : Z -> list Transaction -> M (list Transaction))
      (P : Z -> Transaction -> Prop) :
  (forall i data,
      returns (body i data)
              (fun data' => exists r, data' = (data ++ [r])%list /\ P i r)) ->
  forall k i data,
    returns (for_range k i body data)
            (fun data' =>
               exists rs, data' = (data ++ rs)%list /\
                          Forall2 P (map (fun j => (i + Z.of_nat j)%Z) (seq 0 k)) rs).
Proof.
  intros Hbody. induction k as [|k IH]; intros i data; cbn [for_range].
  - apply returns_ret. exists []. rewrite app_nil_r. split; [reflexivity|constructor].
  - eapply returns_bind; [apply Hbody|].
    intros data1 (r & -> & Hr).
    eapply returns_weaken; [apply IH|].
    intros data2 (rs & -> & Hrs).
    exists (r :: rs). rewrite <- app_assoc. split; [reflexivity|].
    cbn [seq map]. constructor.
    + now rewrite Z.add_0_r.
    + rewrite <- seq_shift, map_map.
      erewrite map_ext; [exact Hrs|]. intros j. cbv beta. lia.
Qed.

(** The frame returned for positive [n]: the rows of indices [0 .. n-1],
    sorted by date. *)
Lemma generate_ecommerce_data_returns_full (today n : Z) :
  (0 < n)%Z ->
  returns (generate_ecommerce_data today n)
          (fun df =>
             columns df = SCHEMA /\
             exists rs,
               rows df = sort_by date_le rs /\
               Forall2 (generated_row (today - 730))
                       (map Z.of_nat (seq 0 (Z.to_nat n))) rs).
Proof.
  intros Hn. unfold generate_ecommerce_data. cbv zeta.
  eapply returns_bind;
    [apply for_range_returns_indexed, generate_row_returns_full|].
  intros data (rs & -> & Hrs). simpl app.
  assert (E : sort_values_date (pd_DataFrame rs)
              = Ok {| columns := SCHEMA; rows := sort_by date_le rs |}).
  { destruct rs; [|reflexivity].
    inversion Hrs as [E0|]. destruct (Z.to_nat n) eqn:En; [lia | discriminate]. }
  rewrite E. eapply returns_weaken; [apply returns_lift|].
  intros df <-. cbn [columns rows]. split; [reflexivity|].
  exists rs. split; [reflexivity|].
  erewrite map_ext; [exact Hrs|]. reflexivity.
Qed.

Lemma Forall2_In_r {A B : Type} (P : A -> B -> Prop) (la : list A) (lb : list B)
      (b : B) :
  Forall2 P la lb -> In b lb -> exists a, In a la /\ P a b.
Proof.
  induction 1 as [|a0 b0 la lb H0 H IH]; simpl; [tauto|].
  intros [<-|Hb].
  - exists a0. auto.
  - destruct (IH Hb) as (a & Ha & Hab). exists a. auto.
Qed.

(** Every row of the returned frame is the row of some index below [n]. *)
Lemma generate_ecommerce_data_rows (today n : Z) (s : rng) :
  (0 < n)%Z ->
  exists df s',
    generate_ecommerce_data today n s = Ok (df, s') /\
    (exists rs, rows df = sort_by date_le rs /\
                Forall2 (generated_row (today - 730))
                        (map Z.of_nat (seq 0 (Z.to_nat n))) rs) /\
    forall r, In r (rows df) ->
              exists i, (0 <= i < n)%Z /\ generated_row (today - 730) i r.
Proof.
  intros Hn.
  destruct (generate_ecommerce_data_returns_full today n Hn s)
    as (df & s' & E & _ & rs & Hrows & Hrs).
  exists df, s'. split; [exact E|]. split; [now exists rs|].
  intros r Hr. rewrite Hrows in Hr. apply sort_by_In in Hr.
  destruct (Forall2_In_r _ _ _ r Hrs Hr) as (i & Hi & Hgen).
  exists i. split; [|exact Hgen].
  apply in_map_iff in Hi. destruct Hi as (j & <- & Hj).
  apply in_seq in Hj. lia.
Qed.
End GeneratedRowFacts.

Lemma date_le_total (a b : Transaction) :
  date_le a b = true \/ date_le b a = true.
Proof. unfold date_le. rewrite !Z.leb_le. lia. Qed.

Lemma sort_by_date_sorted (l : list Transaction) :
  StronglySorted (fun a b => (date a <= date b)%Z) (sort_by date_le l).
Proof.
  pose proof (sort_by_sorted date_le date_le_total l) as Hs.
  apply Sorted_StronglySorted in Hs.
  - induction Hs as [|x l' Hs' IH Hx]; constructor; [assumption|].
    rewrite Forall_forall in *. intros y Hy. apply Z.leb_le. now apply Hx.
  - intros a b c. unfold date_le. rewrite !Z.leb_le. lia.
Qed.

(** X1.  For positive [n] the generator returns its rows in
    non-decreasing date order. *)
Theorem generated_rows_sorted_by_date
        (R : RandomSource) (L : RandomLaws R) (today n : Z) (s : rng) :
  (0 < n)%Z ->
  exists df s',
    generate_ecommerce_data today n s = Ok (df, s') /\
    StronglySorted (fun a b => (date a <= date b)%Z) (rows df).
Proof.
  intros Hn.
  destruct (generate_ecommerce_data_rows today n s Hn)
    as (df & s' & E & (rs & Hrows & _) & _).
  exists df, s'. split; [exact E | rewrite Hrows; apply sort_by_date_sorted].
Qed.

Lemma generated_rows_sorted_by_date_lcg :
  (0 < 6)%Z /\
  exists df s',
    @generate_ecommerce_data lcg_source 1000 6 (@seed_all lcg_source 42)
    = Ok (df, s') /\
    StronglySorted (fun a b => (date a <= date b)%Z) (rows df).
Proof.
  split; [reflexivity|].
  apply (generated_rows_sorted_by_date lcg_source lcg_laws 1000 6).
  reflexivity.
Defined.

(** X2.  Every generated row takes its category, region and payment
    method from the module's lists and its status from the three statuses
    of the draw, the product from the catalog of the row's own category,
    and its quantity from 1 to 5. *)
Theorem generated_rows_domains
        (R : RandomSource) (L : RandomLaws R) (today n : Z) (s : rng) :
  (0 < n)%Z ->
  exists df s',
    generate_ecommerce_data today n s = Ok (df, s') /\
    forall r, In r (rows df) ->
      In (category r) CATEGORIES /\
      (exists catalog, PRODUCTS (category r) = Ok catalog /\
                       In (product r) catalog) /\
      (1 <= quantity r <= 5)%Z /\
      In (region r) REGIONS /\
      In (payment_method r) PAYMENT_METHODS /\
      In (status r) STATUSES.
Proof.
  intros Hn.
  destruct (generate_ecommerce_data_rows today n s Hn) as (df & s' & E & _ & H).
  exists df, s'. split; [exact E|]. intros r Hr.
  destruct (H r Hr) as (i & _ & G).
  destruct G as [_ _ _ Hcat Hprod Hqty _ _ Hreg Hpay Hst]. tauto.
Qed.

Lemma generated_rows_domains_lcg :
  (0 < 6)%Z /\
  exists df s',
    @generate_ecommerce_data lcg_source 1000 6 (@seed_all lcg_source 42)
    = Ok (df, s') /\
    forall r, In r (rows df) ->
      In (category r) CATEGORIES /\
      (exists catalog, PRODUCTS (category r) = Ok catalog /\
                       In (product r) catalog) /\
      (1 <= quantity r <= 5)%Z /\
      In (region r) REGIONS /\
      In (payment_method r) PAYMENT_METHODS /\
      In (status r) STATUSES.
Proof.
  split; [reflexivity|].
  apply (generated_rows_domains lcg_source lcg_laws 1000 6).
  reflexivity.
Defined.

Lemma round2_between (lo hi q : Q) :
  whole_cents lo -> whole_cents hi -> lo <= q -> q <= hi ->
  lo <= round2 q /\ round2 q <= hi.
Proof.
  intros [zl Hl] [zh Hh] H1 H2. rewrite Hl, Hh in *.
  split; [now apply round2_lower | now apply round2_upper].
Qed.

(** X3.  Every generated unit price lies inside the range of its
    category widened by the 10% jitter: 45 to 1320 for
    Électronique, 13.50 to 165 for Vêtements, 9 to 330 for Maison & Jardin,
    9 to 550 for Sports & Loisirs, 4.50 to 55 for Livres. *)
Theorem generated_unit_price_range
        (R : RandomSource) (L : RandomLaws R) (today n : Z) (s : rng) :
  (0 < n)%Z ->
  exists df s',
    generate_ecommerce_data today n s = Ok (df, s') /\
    forall r, In r (rows df) ->
      (category r = "Électronique" -> 45 <= unit_price r /\ unit_price r <= 1320) /\
      (category r = "Vêtements" -> 135 # 10 <= unit_price r /\ unit_price r <= 165) /\
      (category r = "Maison & Jardin" -> 9 <= unit_price r /\ unit_price r <= 330) /\
      (category r = "Sports & Loisirs" -> 9 <= unit_price r /\ unit_price r <= 550) /\
      (category r = "Livres" -> 45 # 10 <= unit_price r /\ unit_price r <= 55).
Proof.
  intros Hn.
  destruct (generate_ecommerce_data_rows today n s Hn) as (df & s' & E & _ & H).
  exists df, s'. split; [exact E|]. intros r Hr.
  destruct (H r Hr) as (i & _ & G).
  destruct (gen_price _ _ _ G) as (b & j & -> & Hj1 & Hj2 & Hb).
  assert (Hcases :
    forall (c : string) (lo hi blo bhi : Q),
      whole_cents lo -> whole_cents hi ->
      lo <= blo * (9 # 10) -> bhi * (11 # 10) <= hi -> 0 <= blo ->
      category r = c ->
      lo <= round2 (b * j) /\ round2 (b * j) <= hi \/
      ~ (category r = c /\ blo <= b /\ b <= bhi)).
  { intros c lo hi blo bhi Wl Wh H1 H2 H0 Hc.
    destruct (Qlt_le_dec b blo) as [F|Hb1]; [right; intros (_ & F1 & _); lra|].
    destruct (Qlt_le_dec bhi b) as [F|Hb2]; [right; intros (_ & _ & F1); lra|].
    left. apply round2_between; try assumption; nra. }
  assert (Hpick :
    forall (c : string) (lo hi blo bhi : Q),
      whole_cents lo -> whole_cents hi ->
      lo <= blo * (9 # 10) -> bhi * (11 # 10) <= hi -> 0 <= blo ->
      In (c, blo, bhi)
         [("Électronique", 50, 1200); ("Vêtements", 15, 150);
          ("Maison & Jardin", 10, 300); ("Sports & Loisirs", 10, 500);
          ("Livres", 5, 50)] ->
      category r = c ->
      lo <= round2 (b * j) /\ round2 (b * j) <= hi).
  { intros c lo hi blo bhi Wl Wh H1 H2 H0 Hin Hc.
    destruct (Hcases c lo hi blo bhi Wl Wh H1 H2 H0 Hc) as [Hok|Hno];
      [exact Hok|].
    exfalso.
    destruct Hin as [X|[X|[X|[X|[X|[]]]]]]; inversion X; subst c blo bhi;
      destruct Hb as [Hb|[Hb|[Hb|[Hb|Hb]]]];
      first [ now apply Hno | destruct Hb as [Hb _]; congruence ]. }
  split; [|split; [|split; [|split]]].
  - apply (Hpick _ _ _ 50 1200); try lra; simpl; auto 6;
      [exists 4500%Z | exists 132000%Z]; reflexivity.
  - apply (Hpick _ _ _ 15 150); try lra; simpl; auto 6;
      [exists 1350%Z | exists 16500%Z]; reflexivity.
  - apply (Hpick _ _ _ 10 300); try lra; simpl; auto 6;
      [exists 900%Z | exists 33000%Z]; reflexivity.
  - apply (Hpick _ _ _ 10 500); try lra; simpl; auto 6;
      [exists 900%Z | exists 55000%Z]; reflexivity.
  - apply (Hpick _ _ _ 5 50); try lra; simpl; auto 6;
      [exists 450%Z | exists 5500%Z]; reflexivity.
Qed.

Lemma generated_unit_price_range_lcg :
  (0 < 6)%Z /\
  exists df s',
    @generate_ecommerce_data lcg_source 1000 6 (@seed_all lcg_source 42)
    = Ok (df, s') /\
    forall r, In r (rows df) ->
      category r = "Livres" -> 45 # 10 <= unit_price r /\ unit_price r <= 55.
Proof.
  split; [reflexivity|].
  destruct (generated_unit_price_range lcg_source lcg_laws 1000 6
              (@seed_all lcg_source 42) eq_refl) as (df & s' & E & H).
  exists df, s'. split; [exact E|]. intros r Hr.
  destruct (H r Hr) as (_ & _ & _ & _ & Hl). exact Hl.
Defined.

Lemma py_int_nonneg (q : Q) : 0 <= q -> (0 <= py_int q)%Z.
Proof.
  intros H. unfold py_int. apply Z.quot_pos; [|lia].
  unfold Qle in H. simpl in H. lia.
Qed.

(** X4.  When the exponential draws are non-negative, every generated date
    lies in the two years that end on the day of the run: from
    [today - 730] to [today]. *)
Theorem generated_dates_window
        (R : RandomSource) (L : RandomLaws R) (today n : Z) (s : rng) :
  (forall scale st, 0 <= scale -> 0 <= fst (np_exponential scale st)) ->
  (0 < n)%Z ->
  exists df s',
    generate_ecommerce_data today n s = Ok (df, s') /\
    forall r, In r (rows df) -> (today - 730 <= date r <= today)%Z.
Proof.
  intros Hexp Hn.
  destruct (generate_ecommerce_data_rows today n s Hn) as (df & s' & E & _ & H).
  exists df, s'. split; [exact E|]. intros r Hr.
  destruct (H r Hr) as (i & _ & G).
  destruct (gen_date _ _ _ G) as (off & -> & Hle & [H0|(st & ->)]); [lia|].
  assert (0 <= py_int (fst (np_exponential 200 st)))%Z
    by (apply py_int_nonneg, Hexp; lra).
  lia.
Qed.

Lemma lcg_exponential_nonneg :
  forall scale st, 0 <= scale -> 0 <= fst (@np_exponential lcg_source scale st).
Proof.
  intros scale st H. cbn [np_exponential lcg_source fst].
  apply Qmult_le_0_compat; [assumption|].
  pose proof (Z.mod_pos_bound (lcg st) 5).
  unfold Qle. simpl. lia.
Defined.

Lemma generated_dates_window_lcg :
  (0 < 6)%Z /\
  exists df s',
    @generate_ecommerce_data lcg_source 1000 6 (@seed_all lcg_source 42)
    = Ok (df, s') /\
    forall r, In r (rows df) -> (1000 - 730 <= date r <= 1000)%Z.
Proof.
  split; [reflexivity|].
  apply (generated_dates_window lcg_source lcg_laws 1000 6 _
           lcg_exponential_nonneg).
  reflexivity.
Defined.

(** * Identifiers *)

Lemma zfill_length (k : nat) (s : string) :
  String.length (zfill k s) = (k + String.length s)%nat.
Proof.
  revert s. induction k as [|k IH]; intros s; simpl; [reflexivity|].
  rewrite IH. simpl. lia.
Qed.

Lemma uint_of_string_zfill (k : nat) (s : string) (d : Decimal.uint) :
  NilZero.uint_of_string s = Some d ->
  exists d', NilZero.uint_of_string (zfill k s) = Some d' /\
             N.of_uint d' = N.of_uint d.
Proof.
  revert s d. induction k as [|k IH]; intros s d H; cbn [zfill].
  - now exists d.
  - apply (IH _ (Decimal.D0 d)).
    destruct s as [|a s]; [discriminate|].
    cbn [NilZero.uint_of_string] in H.
    change ("0" ++ String a s) with (String "0" (String a s)).
    cbn [NilZero.uint_of_string NilEmpty.uint_of_string] in *.
    now rewrite H.
Qed.

Lemma to_uint_nonnil (n : N) : N.to_uint n <> Decimal.Nil.
Proof.
  destruct n as [|p]; [discriminate|]. apply DecimalPos.Unsigned.to_uint_nonnil.
Qed.

Lemma parse_d_format_0d (width : nat) (z : Z) :
  (0 <= z)%Z -> parse_d (format_0d width z) = Some z.
Proof.
  intros Hz. unfold format_0d.
  destruct (Z.ltb_spec z 0) as [F|_]; [lia|].
  set (digits := NilZero.string_of_uint (N.to_uint (Z.abs_N z))).
  assert (Hd : NilZero.uint_of_string digits = Some (N.to_uint (Z.abs_N z)))
    by apply NilZero.usu, to_uint_nonnil.
  destruct (uint_of_string_zfill (width - String.length digits) _ _ Hd)
    as (d' & E & Hd').
  unfold parse_d. rewrite E. cbn [option_map].
  rewrite Hd', DecimalN.Unsigned.of_to, N2Z.inj_abs_N. f_equal. lia.
Qed.

Lemma format_0d_inj (width : nat) (a b : Z) :
  (0 <= a)%Z -> (0 <= b)%Z -> format_0d width a = format_0d width b -> a = b.
Proof.
  intros Ha Hb E.
  pose proof (parse_d_format_0d width a Ha) as Pa.
  rewrite E, (parse_d_format_0d width b Hb) in Pa. now inversion Pa.
Qed.

(** X5.  The number in an identifier reads back: for every width and
    every non-negative number, parsing the zero-padded decimal gives the
    number again, and the text is at least as long as the width (longer
    numbers are not cut). *)
Theorem format_0d_parse (width : nat) (z : Z) :
  (0 <= z)%Z ->
  parse_d (format_0d width z) = Some z /\
  (width <= String.length (format_0d width z))%nat.
Proof.
  intros Hz. split; [now apply parse_d_format_0d|].
  unfold format_0d. destruct (Z.ltb_spec z 0) as [F|_]; [lia|].
  rewrite zfill_length. lia.
Qed.

Lemma format_0d_parse_42 :
  (0 <= 42)%Z /\ parse_d (format_0d 6 42) = Some 42%Z.
Proof.
  assert (H : (0 <= 42)%Z) by discriminate.
  split; [exact H | exact (proj1 (format_0d_parse 6 42 H))].
Defined.

Lemma Forall2_map_eq {A B C : Type} (P : A -> B -> Prop) (f : B -> C) (g : A -> C)
      (la : list A) (lb : list B) :
  (forall a b, P a b -> f b = g a) ->
  Forall2 P la lb -> map f lb = map g la.
Proof.
  intros H. induction 1 as [|a b la lb Hab _ IH]; simpl; [reflexivity|].
  now rewrite (H a b Hab), IH.
Qed.

Lemma prefixed_inj (prefix : string) (a b : string) :
  prefix ++ a = prefix ++ b -> a = b.
Proof.
  induction prefix as [|c prefix IH]; simpl; intros H; [exact H|].
  injection H as H. now apply IH.
Qed.

(** X6.  The transaction ids of a generated frame are TXN_ followed by the
    numbers 1 to [n] padded to six digits, each exactly once. *)
Theorem generated_transaction_ids
        (R : RandomSource) (L : RandomLaws R) (today n : Z) (s : rng) :
  (0 < n)%Z ->
  exists df s',
    generate_ecommerce_data today n s = Ok (df, s') /\
    Permutation (map transaction_id (rows df))
                (map (fun i => "TXN_" ++ format_0d 6 (Z.of_nat i + 1))
                     (seq 0 (Z.to_nat n))) /\
    NoDup (map transaction_id (rows df)).
Proof.
  intros Hn.
  destruct (generate_ecommerce_data_rows today n s Hn)
    as (df & s' & E & (rs & Hrows & Hrs) & _).
  exists df, s'. split; [exact E|].
  assert (Hids : map transaction_id rs
                 = map (fun i => "TXN_" ++ format_0d 6 (Z.of_nat i + 1))
                       (seq 0 (Z.to_nat n))).
  { rewrite <- (map_map Z.of_nat (fun z => "TXN_" ++ format_0d 6 (z + 1))).
    apply (Forall2_map_eq (generated_row (today - 730))); [|exact Hrs].
    intros i r G. apply (gen_id _ _ _ G). }
  assert (Hperm : Permutation (map transaction_id (rows df))
                              (map transaction_id rs)).
  { rewrite Hrows. apply Permutation_map, sort_by_perm. }
  split; [now rewrite <- Hids|].
  apply (Permutation_NoDup (l := map transaction_id rs)); [now symmetry|].
  rewrite Hids. apply Finite.Injective_map_NoDup_in; [|apply seq_NoDup].
  intros i j _ _ Hij. apply prefixed_inj, format_0d_inj in Hij; lia.
Qed.

Lemma generated_transaction_ids_lcg :
  (0 < 6)%Z /\
  exists df s',
    @generate_ecommerce_data lcg_source 1000 6 (@seed_all lcg_source 42)
    = Ok (df, s') /\
    NoDup (map transaction_id (rows df)).
Proof.
  split; [reflexivity|].
  destruct (generated_transaction_ids lcg_source lcg_laws 1000 6
              (@seed_all lcg_source 42) eq_refl) as (df & s' & E & _ & H).
  exists df, s'. split; [exact E | exact H].
Defined.

(** * The customer table *)

Lemma unique_by_length_le {A : Type} (eqb : A -> A -> bool) (l : list A) :
  (List.length (unique_by eqb l) <= List.length l)%nat.
Proof.
  induction l as [|x l IH]; simpl; [lia|].
  pose proof (filter_length_le (fun y => negb (eqb y x)) (unique_by eqb l)). lia.
Qed.

Lemma generate_customer_data_ids (t : list Transaction) :
  map c_customer_id (generate_customer_data t) = unique (map customer_id t).
Proof. unfold generate_customer_data. rewrite map_map. apply map_id. Qed.

Lemma generate_customer_data_length (t : list Transaction) :
  List.length (generate_customer_data t)
  = List.length (unique (map customer_id t)).
Proof. unfold generate_customer_data. apply length_map. Qed.

(** X7.  However many transactions are generated, the customer table of a
    run has at most 1000 rows (and at most [n]): every customer id is
    CUST_ followed by a number from 1 to 1000 padded to four digits. *)
Theorem generated_customers_pool
        (R : RandomSource) (L : RandomLaws R) (seed today n : Z) :
  (0 < n)%Z ->
  exists df cs,
    generate_tables seed today n = Ok (df, cs) /\
    (List.length cs <= 1000)%nat /\
    (List.length cs <= Z.to_nat n)%nat /\
    forall c, In c cs ->
      exists k, (1 <= k <= 1000)%Z /\
                c_customer_id c = "CUST_" ++ format_0d 4 k.
Proof.
  intros Hn. unfold generate_tables.
  destruct (generate_ecommerce_data_rows today n (seed_all seed) Hn)
    as (df & s' & E & (rs & Hrows & Hrs) & Hall).
  rewrite E. exists df, (generate_customer_data (rows df)).
  split; [reflexivity|].
  assert (Hid : forall c, In c (generate_customer_data (rows df)) ->
                  exists k, (1 <= k <= 1000)%Z /\
                            c_customer_id c = "CUST_" ++ format_0d 4 k).
  { intros c Hc. apply (in_map c_customer_id) in Hc.
    rewrite generate_customer_data_ids in Hc.
    apply (proj1 (unique_by_In String.eqb String.eqb_eq _ _)) in Hc.
    apply in_map_iff in Hc. destruct Hc as (r & <- & Hr).
    destruct (Hall r Hr) as (i & _ & G). apply (gen_customer _ _ _ G). }
  split; [|split; [|exact Hid]].
  - set (pool := map (fun k => "CUST_" ++ format_0d 4 (Z.of_nat k + 1))
                     (seq 0 1000)).
    assert (Hlen : List.length pool = 1000%nat)
      by (unfold pool; now rewrite length_map, length_seq).
    rewrite <- Hlen, <- (length_map c_customer_id).
    apply NoDup_incl_length.
    + rewrite generate_customer_data_ids.
      apply unique_by_NoDup, String.eqb_eq.
    + intros cid Hcid. apply in_map_iff in Hcid. destruct Hcid as (c & <- & Hc).
      destruct (Hid c Hc) as (k & Hk & ->).
      unfold pool. apply in_map_iff. exists (Z.to_nat (k - 1)).
      split; [f_equal; f_equal; lia | apply in_seq; lia].
  - rewrite generate_customer_data_length.
    etransitivity; [apply unique_by_length_le|].
    rewrite length_map, Hrows, sort_by_length.
    rewrite <- (Forall2_length Hrs), length_map, length_seq. lia.
Qed.

Lemma generated_customers_pool_lcg :
  (0 < 6)%Z /\
  exists df cs,
    @generate_tables lcg_source 42 1000 6 = Ok (df, cs) /\
    (List.length cs <= 1000)%nat /\
    (List.length cs <= 6)%nat.
Proof.
  split; [reflexivity|].
  destruct (generated_customers_pool lcg_source lcg_laws 42 1000 6 eq_refl)
    as (df & cs & E & H1 & H2 & _).
  exists df, cs. split; [exact E|]. split; [exact H1 | exact H2].
Defined.

(** X8.  Every row of the customer table counts at least one transaction
    and has a first purchase date, and the [total_purchases] column sums
    to the number of transactions: each transaction is counted for
    exactly one customer. *)
Theorem customer_purchases_partition (t : list Transaction) :
  Zsum (map total_purchases (generate_customer_data t))
  = Z.of_nat (List.length t) /\
  forall c, In c (generate_customer_data t) ->
    (1 <= total_purchases c)%Z /\ first_purchase_date c <> None.
Proof.
  split.
  - unfold generate_customer_data. rewrite map_map. cbn [total_purchases].
    rewrite <- (Zsum_ones t).
    rewrite <- (Zsum_partition String.eqb String.eqb_eq customer_id
                  (fun _ => 1%Z) (unique (map customer_id t)) t).
    + f_equal. apply map_ext. intros cid. now rewrite Zsum_ones.
    + apply unique_by_NoDup, String.eqb_eq.
    + intros r Hr. apply unique_by_In; [apply String.eqb_eq | now apply in_map].
  - intros c Hc.
    destruct (generate_customer_data_In t c Hc) as (Hin & Hd & Hn & _).
    apply in_map_iff in Hin. destruct Hin as (r & Hr & Hrt).
    assert (Hm : In r (filter (fun r0 => customer_id r0 =? c_customer_id c) t)).
    { apply filter_In. split; [assumption | now apply String.eqb_eq]. }
    rewrite Hn, Hd.
    destruct (filter (fun r0 => customer_id r0 =? c_customer_id c) t) as [|r0 l];
      [contradiction|].
    split; [simpl List.length; lia|].
    cbn [map series_min]. destruct (series_min (map date l)); discriminate.
Qed.

Lemma customer_purchases_partition_sample :
  Zsum (map total_purchases (generate_customer_data sample_table)) = 4%Z /\
  exists c, In c (generate_customer_data sample_table) /\
            (1 <= total_purchases c)%Z.
Proof.
  destruct (customer_purchases_partition sample_table) as [Hs Hc].
  split; [exact Hs|].
  eexists. split; [left; reflexivity|].
  match goal with |- (1 <= total_purchases ?c)%Z =>
    exact (proj1 (Hc c (or_introl eq_refl))) end.
Defined.

(** * More on the KPIs and the grouped views *)

Lemma unique_nonempty (l : list string) : l <> [] -> unique l <> [].
Proof. destruct l; [congruence | discriminate]. Qed.

(** X9.  On a non-empty collection [calculate_kpis] returns; the
    conversion rate lies between 0 and 100 and is 0 exactly when no row is
    Completed; the average order value is NaN exactly in that case; the
    Completed count is at most the number of rows and the customer count
    lies between 1 and the number of rows. *)
Theorem calculate_kpis_ranges (t : list Transaction) :
  t <> [] ->
  exists k,
    calculate_kpis t = Ok k /\
    0 <= conversion_rate k /\ conversion_rate k <= 100 /\
    (conversion_rate k == 0 <-> filter is_completed t = []) /\
    (avg_order_value k = NaN <-> filter is_completed t = []) /\
    (0 <= total_transactions k <= Z.of_nat (List.length t))%Z /\
    (1 <= total_customers k <= Z.of_nat (List.length t))%Z.
Proof.
  intros Ht. eexists. split; [now apply calculate_kpis_returns|].
  cbn [conversion_rate avg_order_value total_transactions total_customers].
  set (c := List.length (filter is_completed t)).
  set (n := List.length t).
  assert (Hn : (0 < n)%nat) by (unfold n; destruct t; [congruence | simpl; lia]).
  assert (Hc : (c <= n)%nat) by apply filter_length_le.
  assert (Hnq : 0 < inject_Z (Z.of_nat n)).
  { change 0 with (inject_Z 0). rewrite <- Zlt_Qlt. lia. }
  assert (Hcq : 0 <= inject_Z (Z.of_nat c)).
  { change 0 with (inject_Z 0). rewrite <- Zle_Qle. lia. }
  assert (Hcn : inject_Z (Z.of_nat c) <= inject_Z (Z.of_nat n)).
  { rewrite <- Zle_Qle. lia. }
  assert (Hzero : c = 0%nat <-> filter is_completed t = []).
  { unfold c. split; [apply length_zero_iff_nil | now intros ->]. }
  split; [|split; [|split; [|split; [|split]]]].
  - apply Qmult_le_0_compat; [|discriminate].
    apply Qle_shift_div_l; [assumption|]. lra.
  - assert (inject_Z (Z.of_nat c) / inject_Z (Z.of_nat n) <= 1).
    { apply Qle_shift_div_r; [assumption|]. lra. }
    lra.
  - rewrite <- Hzero. split.
    + intros H.
      assert (E : inject_Z (Z.of_nat c) == 0).
      { assert (Hd : inject_Z (Z.of_nat c) / inject_Z (Z.of_nat n) == 0).
        { revert H. generalize (inject_Z (Z.of_nat c) / inject_Z (Z.of_nat n)).
          intros x H. lra. }
        assert (Hm : inject_Z (Z.of_nat c)
                     == inject_Z (Z.of_nat c) / inject_Z (Z.of_nat n)
                        * inject_Z (Z.of_nat n)) by (field; lra).
        rewrite Hm, Hd. ring. }
      apply (inject_Z_injective (Z.of_nat c) 0) in E. lia.
    + intros ->. reflexivity.
  - unfold series_mean.
    destruct (filter is_completed t) as [|r l]; cbn [map];
      split; intros H; try reflexivity; discriminate.
  - unfold c, n in *. lia.
  - split; [|apply inj_le; etransitivity;
             [apply unique_by_length_le | now rewrite length_map]].
    assert (Hu : unique (map customer_id t) <> []).
    { apply unique_nonempty. destruct t; [congruence | discriminate]. }
    destruct (unique (map customer_id t)); [congruence | simpl List.length; lia].
Qed.

Lemma calculate_kpis_ranges_cancelled :
  cancelled_table <> [] /\
  exists k,
    calculate_kpis cancelled_table = Ok k /\
    conversion_rate k == 0 /\ avg_order_value k = NaN.
Proof.
  assert (H : cancelled_table <> []) by discriminate.
  split; [exact H|].
  destruct (calculate_kpis_ranges cancelled_table H)
    as (k & E & _ & _ & Hz & Ha & _).
  exists k. split; [exact E|].
  split; [apply Hz; reflexivity | apply Ha; reflexivity].
Defined.

(** X10.  The integer columns of the views reconcile with the KPIs of a
    non-empty collection: the units of [sales_by_category] sum to
    [total_products_sold], and the transactions of [sales_by_region] and
    of [payment_method_analysis] sum to [total_transactions]. *)
Theorem integer_columns_reconcile (t : list Transaction) :
  t <> [] ->
  exists k,
    calculate_kpis t = Ok k /\
    Zsum (map cs_units_sold (sales_by_category t)) = total_products_sold k /\
    Zsum (map rs_transactions (sales_by_region t)) = total_transactions k /\
    Zsum (map pm_transactions (payment_method_analysis t)) = total_transactions k.
Proof.
  intros Ht. eexists. split; [now apply calculate_kpis_returns|].
  cbn [total_products_sold total_transactions].
  split; [|split].
  - unfold sales_by_category.
    rewrite (Zsum_perm _ _ (Permutation_map cs_units_sold (sort_desc_perm _ _))).
    rewrite map_map. cbn [cs_units_sold].
    apply (groupby_Zsum _ _ String.eqb_eq).
  - unfold sales_by_region.
    rewrite (Zsum_perm _ _ (Permutation_map rs_transactions (sort_desc_perm _ _))).
    rewrite map_map. cbn [rs_transactions].
    apply (groupby_count _ _ String.eqb_eq).
  - unfold payment_method_analysis.
    rewrite (Zsum_perm _ _ (Permutation_map pm_transactions (sort_desc_perm _ _))).
    rewrite !map_map. cbn [pm_transactions snd].
    apply (groupby_count _ _ String.eqb_eq).
Qed.

Lemma integer_columns_reconcile_sample :
  sample_table <> [] /\
  exists k,
    calculate_kpis sample_table = Ok k /\
    Zsum (map cs_units_sold (sales_by_category sample_table))
    = total_products_sold k /\
    Zsum (map rs_transactions (sales_by_region sample_table))
    = total_transactions k /\
    Zsum (map pm_transactions (payment_method_analysis sample_table))
    = total_transactions k.
Proof.
  assert (H : sample_table <> []) by discriminate.
  split; [exact H|]. exact (integer_columns_reconcile sample_table H).
Defined.

(** X11.  The customer table has as many rows as the [total_customers]
    KPI of the same transactions counts. *)
Theorem customers_match_kpis (t : list Transaction) :
  t <> [] ->
  exists k,
    calculate_kpis t = Ok k /\
    total_customers k = Z.of_nat (List.length (generate_customer_data t)).
Proof.
  intros Ht. eexists. split; [now apply calculate_kpis_returns|].
  cbn [total_customers]. unfold generate_customer_data. now rewrite length_map.
Qed.

Lemma customers_match_kpis_sample :
  sample_table <> [] /\
  exists k,
    calculate_kpis sample_table = Ok k /\
    total_customers k = Z.of_nat (List.length (generate_customer_data sample_table)).
Proof.
  assert (H : sample_table <> []) by discriminate.
  split; [exact H|]. exact (customers_match_kpis sample_table H).
Defined.

(** X12.  [sales_by_region] has exactly one row per region that occurs
    among the Completed rows, in non-increasing order of revenue; the
    row's transactions count the Completed rows of the region and are at
    least 1. *)
Theorem sales_by_region_rows (t : list Transaction) :
  NoDup (map rs_region (sales_by_region t)) /\
  (forall reg, In reg (map rs_region (sales_by_region t)) <->
               exists r, In r t /\ status r = Completed /\ region r = reg) /\
  StronglySorted (fun a b => rs_revenue b <= rs_revenue a) (sales_by_region t) /\
  forall s, In s (sales_by_region t) ->
    rs_transactions s =
      Z.of_nat (List.length
        (filter (fun r => is_completed r && (region r =? rs_region s)) t)) /\
    (1 <= rs_transactions s)%Z.
Proof.
  unfold sales_by_region.
  set (completed := filter is_completed t).
  set (groups := groupby String.eqb String.leb region completed).
  set (mk := fun g : string * list Transaction =>
               {| rs_region := fst g;
                  rs_revenue := Qsum (map total_amount (snd g));
                  rs_transactions := Z.of_nat (List.length (snd g)) |}).
  assert (Hperm : Permutation (sort_desc rs_revenue (map mk groups)) (map mk groups))
    by apply sort_desc_perm.
  assert (Hkeys : map rs_region (map mk groups)
                  = group_keys String.eqb String.leb (map region completed)).
  { rewrite map_map. cbn [rs_region mk].
    apply (groupby_keys String.eqb String.leb region completed). }
  split; [|split; [|split]].
  - apply (Permutation_NoDup (l := map rs_region (map mk groups))).
    + symmetry. now apply Permutation_map.
    + rewrite Hkeys. apply group_keys_NoDup, String.eqb_eq.
  - intros reg.
    rewrite (Permutation_in' (eq_refl reg) (Permutation_map rs_region Hperm)).
    rewrite Hkeys, (group_keys_In _ _ String.eqb_eq), in_map_iff.
    unfold completed. split.
    + intros (r & <- & Hr). apply filter_In in Hr. destruct Hr as [Hr Hc].
      exists r. repeat split; [assumption | now apply is_completed_spec].
    + intros (r & Hr & Hs & <-). exists r. split; [reflexivity|].
      apply filter_In. split; [assumption | now apply is_completed_spec].
  - apply sort_desc_sorted.
  - intros s Hs. apply (Permutation_in _ Hperm) in Hs.
    apply in_map_iff in Hs. destruct Hs as (g & <- & Hg).
    destruct (groupby_In _ _ String.eqb_eq _ _ _ Hg) as [Eg Hne].
    cbn [rs_transactions rs_region mk].
    split.
    + rewrite Eg. unfold completed. now rewrite filter_and.
    + destruct (snd g); [congruence | simpl List.length; lia].
Qed.

Lemma sales_by_region_rows_sample :
  exists s, In s (sales_by_region sample_table) /\
            rs_region s = "Bretagne" /\ rs_transactions s = 2%Z.
Proof.
  destruct (sales_by_region_rows sample_table) as (_ & _ & _ & H).
  eexists. split; [left; reflexivity|]. split; [reflexivity|].
  match goal with |- rs_transactions ?s = _ =>
    rewrite (proj1 (H s (or_introl eq_refl))) end.
  reflexivity.
Defined.

(** X13.  [sales_by_category] has exactly one row per category that
    occurs among the Completed rows, in non-increasing order of revenue;
    the row counts the Completed rows of the category and sums their
    quantities. *)
Theorem sales_by_category_rows (t : list Transaction) :
  NoDup (map cs_category (sales_by_category t)) /\
  (forall cat, In cat (map cs_category (sales_by_category t)) <->
               exists r, In r t /\ status r = Completed /\ category r = cat) /\
  StronglySorted (fun a b => cs_revenue b <= cs_revenue a) (sales_by_category t) /\
  forall s, In s (sales_by_category t) ->
    let g := filter (fun r => is_completed r && (category r =? cs_category s)) t in
    cs_transactions s = Z.of_nat (List.length g) /\
    cs_units_sold s = Zsum (map quantity g) /\
    (1 <= cs_transactions s)%Z.
Proof.
  unfold sales_by_category.
  set (completed := filter is_completed t).
  set (groups := groupby String.eqb String.leb category completed).
  set (mk := fun g : string * list Transaction =>
               {| cs_category := fst g;
                  cs_revenue := Qsum (map total_amount (snd g));
                  cs_transactions := Z.of_nat (List.length (snd g));
                  cs_units_sold := Zsum (map quantity (snd g)) |}).
  assert (Hperm : Permutation (sort_desc cs_revenue (map mk groups)) (map mk groups))
    by apply sort_desc_perm.
  assert (Hkeys : map cs_category (map mk groups)
                  = group_keys String.eqb String.leb (map category completed)).
  { rewrite map_map. cbn [cs_category mk].
    apply (groupby_keys String.eqb String.leb category completed). }
  split; [|split; [|split]].
  - apply (Permutation_NoDup (l := map cs_category (map mk groups))).
    + symmetry. now apply Permutation_map.
    + rewrite Hkeys. apply group_keys_NoDup, String.eqb_eq.
  - intros cat.
    rewrite (Permutation_in' (eq_refl cat) (Permutation_map cs_category Hperm)).
    rewrite Hkeys, (group_keys_In _ _ String.eqb_eq), in_map_iff.
    unfold completed. split.
    + intros (r & <- & Hr). apply filter_In in Hr. destruct Hr as [Hr Hc].
      exists r. repeat split; [assumption | now apply is_completed_spec].
    + intros (r & Hr & Hs & <-). exists r. split; [reflexivity|].
      apply filter_In. split; [assumption | now apply is_completed_spec].
  - apply sort_desc_sorted.
  - intros s Hs. apply (Permutation_in _ Hperm) in Hs.
    apply in_map_iff in Hs. destruct Hs as (g & <- & Hg).
    destruct (groupby_In _ _ String.eqb_eq _ _ _ Hg) as [Eg Hne].
    cbn [cs_transactions cs_units_sold cs_category mk]. cbv zeta.
    assert (E : snd g = filter (fun r => is_completed r && (category r =? fst g)) t).
    { rewrite Eg. unfold completed. now rewrite filter_and. }
    rewrite <- E. repeat split.
    destruct (snd g); [congruence | simpl List.length; lia].
Qed.

Lemma sales_by_category_rows_sample :
  exists s, In s (sales_by_category sample_table) /\
            cs_category s = "Livres" /\ cs_transactions s = 2%Z /\
            cs_units_sold s = 2%Z.
Proof.
  destruct (sales_by_category_rows sample_table) as (_ & _ & _ & H).
  eexists. split; [left; reflexivity|]. split; [reflexivity|].
  match goal with |- cs_transactions ?s = _ /\ _ =>
    destruct (H s (or_introl eq_refl)) as (Hn & Hu & _) end.
  split; [rewrite Hn | rewrite Hu]; reflexivity.
Defined.

Lemma StronglySorted_app_inv {A : Type} (R : A -> A -> Prop) (l1 l2 : list A) :
  StronglySorted R (l1 ++ l2) ->
  forall a b, In a l1 -> In b l2 -> R a b.
Proof.
  induction l1 as [|x l1 IH]; simpl; intros H a b Ha Hb; [contradiction|].
  inversion H as [|? ? Hs Hx]; subst.
  destruct Ha as [<-|Ha].
  - rewrite Forall_forall in Hx. apply Hx, in_or_app. now right.
  - now apply IH.
Qed.

Lemma In_firstn_or_skipn {A : Type} (n : nat) (l : list A) (x : A) :
  In x l -> In x (firstn n l) \/ In x (skipn n l).
Proof.
  intros H. rewrite <- (firstn_skipn n l) in H. now apply in_app_or.
Qed.

Lemma head_nonneg {A : Type} (n : Z) (l : list A) :
  (0 <= n)%Z -> head n l = firstn (Z.to_nat n) l.
Proof.
  intros Hn. unfold head. destruct (Z.leb_spec 0 n); [reflexivity | lia].
Qed.

(** X14.  The rows [top_products] returns are the top ones: a product
    that a larger request returns and the smaller one does not has a
    revenue no higher than any product of the smaller request. *)
Theorem top_products_are_top (t : list Transaction) (n m : Z)
        (s s' : ProductStats) :
  (0 <= n <= m)%Z ->
  In s (top_products t n) ->
  In s' (top_products t m) -> ~ In s' (top_products t n) ->
  ps_revenue s' <= ps_revenue s.
Proof.
  intros Hnm. unfold top_products. rewrite !head_nonneg by lia.
  match goal with |- In s (firstn _ ?l) -> _ => set (sorted := l) end.
  intros Hs Hs' Hn'.
  apply firstn_In in Hs'.
  destruct (In_firstn_or_skipn (Z.to_nat n) sorted s' Hs') as [F|F];
    [contradiction|].
  assert (Hsorted : StronglySorted (fun a b => ps_revenue b <= ps_revenue a)
                                   (firstn (Z.to_nat n) sorted
                                    ++ skipn (Z.to_nat n) sorted)).
  { rewrite firstn_skipn. apply sort_desc_sorted. }
  exact (StronglySorted_app_inv _ _ _ Hsorted s s' Hs F).
Qed.

Lemma top_products_are_top_sample :
  exists s s',
    In s (top_products sample_table 1) /\
    In s' (top_products sample_table 3) /\
    ~ In s' (top_products sample_table 1) /\
    ps_revenue s' <= ps_revenue s.
Proof.
  assert (Hnm : (0 <= 1 <= 3)%Z) by lia.
  assert (Hs : In (nth 0 (top_products sample_table 3)
                        (mkProductStats "" "" 0 0 0))
                  (top_products sample_table 1)) by (left; reflexivity).
  assert (Hs' : In (nth 1 (top_products sample_table 3)
                         (mkProductStats "" "" 0 0 0))
                   (top_products sample_table 3)) by (right; left; reflexivity).
  assert (Hn : ~ In (nth 1 (top_products sample_table 3)
                         (mkProductStats "" "" 0 0 0))
                    (top_products sample_table 1)).
  { intros [F|[]]. vm_compute in F. discriminate. }
  eexists. eexists. split; [exact Hs|]. split; [exact Hs'|]. split; [exact Hn|].
  exact (top_products_are_top sample_table 1 3 _ _ Hnm Hs Hs' Hn).
Defined.

(** X15.  A request for no product returns the empty table, and a
    negative [n] is not an error either: [head(n)] then drops the last
    [-n] of all the rows. *)
Theorem top_products_nonpositive (t : list Transaction) (n : Z) :
  (n <= 0)%Z ->
  let all := top_products t
               (Z.of_nat (List.length
                  (unique_by pair_eqb
                     (map (fun r => (product r, category r))
                          (filter is_completed t))))) in
  top_products t 0 = [] /\
  top_products t n
  = (if (n =? 0)%Z then []
     else firstn (List.length all - Z.to_nat (- n)) all).
Proof.
  intros Hn all. split; [reflexivity|].
  destruct (Z.eqb_spec n 0) as [->|Hne]; [reflexivity|].
  subst all. unfold top_products.
  match goal with |- head n ?l = _ => set (sorted := l) end.
  assert (Hlen : List.length sorted
                 = List.length (unique_by pair_eqb
                     (map (fun r => (product r, category r))
                          (filter is_completed t)))).
  { unfold sorted, sort_desc. rewrite sort_by_length, length_map.
    unfold groupby. rewrite length_map. apply group_keys_length. }
  rewrite <- Hlen, (head_nonneg (Z.of_nat (List.length sorted))) by lia.
  rewrite Nat2Z.id, firstn_all.
  unfold head. destruct (Z.leb_spec 0 n); [lia | reflexivity].
Qed.

Lemma top_products_nonpositive_sample :
  (-1 <= 0)%Z /\
  top_products sample_table 0 = [] /\
  List.length (top_products sample_table (-1)) = 2%nat.
Proof.
  assert (H : (-1 <= 0)%Z) by discriminate.
  split; [exact H|].
  destruct (top_products_nonpositive sample_table (-1) H) as [H0 H1].
  split; [exact H0|]. rewrite H1. reflexivity.
Defined.

(** * The segment statistics *)

Section GroupByOnFacts.
Context {X K : Type} (keq kle : K -> K -> bool).
Hypothesis keq_spec : forall a b, keq a b = true <-> a = b.
Variable key : X -> K.

Lemma groupby_on_keys (l : list X) :
  map fst (groupby_on keq kle key l) = group_keys keq kle (map key l).
Proof. unfold groupby_on. rewrite map_map. simpl. apply map_id. Qed.

Lemma groupby_on_In (l : list X) (g : K * list X) :
  In g (groupby_on keq kle key l) ->
  snd g = filter (fun r => keq (key r) (fst g)) l /\ snd g <> [].
Proof.
  unfold groupby_on. rewrite in_map_iff. intros (k & <- & Hk). simpl.
  split; [reflexivity|].
  apply group_keys_In in Hk; [|assumption].
  apply in_map_iff in Hk. destruct Hk as (r & <- & Hr).
  intros E.
  assert (Hin : In r (filter (fun r0 => keq (key r0) (key r)) l)).
  { apply filter_In. split; [assumption | now apply keq_spec]. }
  now rewrite E in Hin.
Qed.

Lemma groupby_on_count (l : list X) :
  Zsum (map (fun g => Z.of_nat (List.length (snd g))) (groupby_on keq kle key l))
  = Z.of_nat (List.length l).
Proof.
  rewrite <- (Zsum_ones l). unfold groupby_on. rewrite map_map. cbn [snd].
  rewrite <- (Zsum_partition keq keq_spec key (fun _ => 1%Z)
                (group_keys keq kle (map key l)) l).
  - f_equal. apply map_ext. intros k. now rewrite Zsum_ones.
  - now apply group_keys_NoDup.
  - intros r Hr. apply group_keys_In; [assumption | now apply in_map].
Qed.
End GroupByOnFacts.

Lemma series_mean_not_nan (l : list Q) : l <> [] -> series_mean l <> NaN.
Proof. destruct l; [congruence | discriminate]. Qed.

(** X16.  [customer_segments_analysis] has one row per segment present
    in the customer table, in ascending order of the segment name (it is
    not sorted by value); [nb_customers] counts the customers of the
    segment, is at least 1 and sums to the number of customers, and the
    two averages are never NaN. *)
Theorem customer_segments_rows (customers : list Customer) :
  NoDup (map sg_segment (customer_segments_analysis customers)) /\
  (forall seg, In seg (map sg_segment (customer_segments_analysis customers))
               <-> In seg (map segment customers)) /\
  Sorted (fun a b => (sg_segment a <=? sg_segment b) = true)
         (customer_segments_analysis customers) /\
  Zsum (map sg_nb_customers (customer_segments_analysis customers))
  = Z.of_nat (List.length customers) /\
  forall s, In s (customer_segments_analysis customers) ->
    sg_nb_customers s =
      Z.of_nat (List.length (filter (fun c => segment c =? sg_segment s) customers)) /\
    (1 <= sg_nb_customers s)%Z /\
    sg_avg_spent s <> NaN /\ sg_avg_purchases s <> NaN.
Proof.
  unfold customer_segments_analysis.
  set (groups := groupby_on String.eqb String.leb segment customers).
  set (mk := fun g : string * list Customer =>
               {| sg_segment := fst g;
                  sg_nb_customers := Z.of_nat (List.length (snd g));
                  sg_total_revenue := Qsum (map total_spent (snd g));
                  sg_avg_spent := series_mean (map total_spent (snd g));
                  sg_avg_purchases :=
                    series_mean (map (fun c => inject_Z (total_purchases c))
                                     (snd g)) |}).
  assert (Hkeys : map sg_segment (map mk groups)
                  = group_keys String.eqb String.leb (map segment customers)).
  { rewrite map_map. cbn [sg_segment mk].
    apply (groupby_on_keys String.eqb String.leb segment customers). }
  split; [|split; [|split; [|split]]].
  - rewrite Hkeys. apply group_keys_NoDup, String.eqb_eq.
  - intros seg. rewrite Hkeys. apply group_keys_In, String.eqb_eq.
  - assert (Hs : Sorted (fun a b => (a <=? b) = true) (map sg_segment (map mk groups))).
    { rewrite Hkeys. unfold group_keys. apply sort_by_sorted, String.leb_total. }
    revert Hs. generalize (map mk groups). intros l.
    induction l as [|a l IH]; intros Hs; [constructor|].
    cbn [map] in Hs. inversion Hs as [|? ? Hs' Hd]; subst.
    constructor; [now apply IH|].
    destruct l as [|b l]; constructor. now inversion Hd.
  - rewrite map_map. cbn [sg_nb_customers mk].
    apply (groupby_on_count String.eqb String.leb String.eqb_eq).
  - intros s Hs. apply in_map_iff in Hs. destruct Hs as (g & <- & Hg).
    destruct (groupby_on_In _ _ String.eqb_eq _ _ _ Hg) as [Eg Hne].
    cbn [sg_nb_customers sg_segment sg_avg_spent sg_avg_purchases mk].
    split; [now rewrite Eg|].
    split; [destruct (snd g); [congruence | simpl List.length; lia]|].
    split; apply series_mean_not_nan; destruct (snd g); (congruence || discriminate).
Qed.

Lemma customer_segments_rows_sample :
  exists s, In s (customer_segments_analysis (generate_customer_data sample_table)) /\
            sg_segment s = "Occasionnel" /\ sg_nb_customers s = 2%Z.
Proof.
  destruct (customer_segments_rows (generate_customer_data sample_table))
    as (_ & _ & _ & _ & H).
  eexists. split; [left; reflexivity|]. split; [reflexivity|].
  match goal with |- sg_nb_customers ?s = _ =>
    rewrite (proj1 (H s (or_introl eq_refl))) end.
  reflexivity.
Defined.

Lemma generate_customer_data_segments (t : list Transaction) (c : Customer) :
  In c (generate_customer_data t) ->
  In (segment c) ["Occasionnel"; "Premium"; "Régulier"].
Proof.
  intros Hc. destruct (generate_customer_data_In t c Hc) as (_ & _ & _ & _ & ->).
  destruct (Qgt_bool _ 2000); [simpl; tauto|].
  destruct (Qgt_bool _ 500); simpl; tauto.
Qed.

(** X17.  On the customer table of any transactions the segment
    statistics have at most three rows, named Occasionnel, Premium or
    Régulier, and their [nb_customers] sum to the number of distinct
    customer ids of the transactions. *)
Theorem customer_segments_of_transactions (t : list Transaction) :
  let stats := customer_segments_analysis (generate_customer_data t) in
  (List.length stats <= 3)%nat /\
  (forall s, In s stats ->
             In (sg_segment s) ["Occasionnel"; "Premium"; "Régulier"]) /\
  Zsum (map sg_nb_customers stats)
  = Z.of_nat (List.length (unique (map customer_id t))).
Proof.
  intros stats. subst stats.
  set (stats := customer_segments_analysis (generate_customer_data t)).
  assert (Hseg : forall s, In s stats ->
                   In (sg_segment s) ["Occasionnel"; "Premium"; "Régulier"]).
  { intros s Hs. apply (in_map sg_segment) in Hs.
    unfold stats, customer_segments_analysis in Hs.
    rewrite map_map in Hs. cbn [sg_segment] in Hs.
    rewrite (groupby_on_keys String.eqb String.leb segment) in Hs.
    apply (proj1 (group_keys_In _ _ String.eqb_eq _ _)) in Hs.
    apply in_map_iff in Hs. destruct Hs as (c & <- & Hc).
    now apply (generate_customer_data_segments t). }
  split; [|split; [exact Hseg|]].
  - rewrite <- (length_map sg_segment).
    change 3%nat with (List.length ["Occasionnel"; "Premium"; "Régulier"]).
    apply NoDup_incl_length.
    + unfold stats, customer_segments_analysis. rewrite map_map.
      cbn [sg_segment].
      rewrite (groupby_on_keys String.eqb String.leb segment).
      apply group_keys_NoDup, String.eqb_eq.
    + intros seg Hin. apply in_map_iff in Hin. destruct Hin as (s & <- & Hs).
      now apply Hseg.
  - unfold stats, customer_segments_analysis. rewrite map_map.
    cbn [sg_nb_customers].
    rewrite (groupby_on_count String.eqb String.leb String.eqb_eq).
    now rewrite generate_customer_data_length.
Qed.

(** * The dashboard's filters *)

Lemma dashboard_filter_filter (c g : string) (df : list Transaction) :
  dashboard_filter c g df
  = filter (fun r => selected c (category r) && selected g (region r)) df.
Proof.
  unfold dashboard_filter, selected.
  destruct (c =? "Toutes"), (g =? "Toutes"); cbn [negb orb andb].
  - induction df as [|r df IH]; [reflexivity | cbn [filter]; now rewrite <- IH].
  - reflexivity.
  - apply filter_ext. intros r. now rewrite andb_true_r.
  - induction df as [|r df IH]; [reflexivity|].
    cbn [filter]. destruct (category r =? c); cbn [filter andb];
      [destruct (region r =? g); now rewrite IH | exact IH].
Qed.

Lemma filter_nil_iff {A : Type} (f : A -> bool) (l : list A) :
  filter f l = [] <-> forall x, In x l -> f x = false.
Proof.
  split.
  - intros E x Hx. destruct (f x) eqn:Hf; [|reflexivity].
    assert (Hin : In x (filter f l)) by (apply filter_In; now split).
    now rewrite E in Hin.
  - intros H. induction l as [|a l IH]; [reflexivity|].
    cbn [filter]. rewrite (H a (or_introl eq_refl)).
    apply IH. intros x Hx. apply H. now right.
Qed.

Lemma calculate_kpis_raises_iff (t : list Transaction) :
  calculate_kpis t = Raise ZeroDivisionError <-> t = [].
Proof.
  split.
  - intros E. destruct t as [|r t]; [reflexivity|].
    rewrite calculate_kpis_returns in E; [discriminate | discriminate].
  - intros ->. reflexivity.
Qed.

Lemma selected_spec (choice value : string) :
  selected choice value = true <-> choice = "Toutes" \/ value = choice.
Proof. unfold selected. rewrite orb_true_iff, !String.eqb_eq. tauto. Qed.

Lemma dashboard_filter_nonempty (c g : string) (df : list Transaction) :
  (exists r, In r df /\ (c = "Toutes" \/ category r = c)
                     /\ (g = "Toutes" \/ region r = g)) ->
  exists k, calculate_kpis (dashboard_filter c g df) = Ok k.
Proof.
  intros (r & Hr & Hc & Hg).
  eexists. apply calculate_kpis_returns.
  rewrite dashboard_filter_filter. intros E.
  assert (Hin : In r (filter (fun r => selected c (category r)
                                       && selected g (region r)) df)).
  { apply filter_In. split; [assumption|].
    apply andb_true_iff. split; now apply selected_spec. }
  now rewrite E in Hin.
Qed.

(** X18.  The dashboard passes the filtered frame to [calculate_kpis]
    without a guard (app.py line 105): the KPIs raise ZeroDivisionError
    exactly when no row has the selected category and region, and are
    returned otherwise. *)
Theorem dashboard_kpis_empty_selection (c g : string) (df : list Transaction) :
  (calculate_kpis (dashboard_filter c g df) = Raise ZeroDivisionError <->
   forall r, In r df ->
     ~ ((c = "Toutes" \/ category r = c) /\ (g = "Toutes" \/ region r = g))) /\
  ((exists r, In r df /\ (c = "Toutes" \/ category r = c)
                      /\ (g = "Toutes" \/ region r = g)) ->
   exists k, calculate_kpis (dashboard_filter c g df) = Ok k).
Proof.
  split; [|apply dashboard_filter_nonempty].
  rewrite calculate_kpis_raises_iff, dashboard_filter_filter, filter_nil_iff.
  split; intros H r Hr.
  - specialize (H r Hr). intros [Hc Hg].
    apply selected_spec in Hc, Hg. rewrite Hc, Hg in H. discriminate.
  - destruct (selected c (category r) && selected g (region r)) eqn:E;
      [|reflexivity].
    apply andb_true_iff in E. destruct E as [Hc Hg].
    apply selected_spec in Hc, Hg. now destruct (H r Hr).
Qed.

(** On the sample table Vêtements and Bretagne are both offered by the
    select boxes, and choosing them together raises. *)
Lemma dashboard_kpis_empty_selection_sample :
  In "Vêtements" (select_options (map category sample_table)) /\
  In "Bretagne" (select_options (map region sample_table)) /\
  calculate_kpis (dashboard_filter "Vêtements" "Bretagne" sample_table)
  = Raise ZeroDivisionError.
Proof.
  split; [vm_compute; tauto|]. split; [vm_compute; tauto|].
  apply (proj1 (dashboard_kpis_empty_selection "Vêtements" "Bretagne" sample_table)).
  intros r Hr [[Hc|Hc] [Hg|Hg]]; try discriminate;
    simpl in Hr; repeat destruct Hr as [<-|Hr]; try discriminate; try contradiction.
Defined.



(** X20.  Once a category is selected the category view of the filtered
    frame has at most one row, and that row is the selected category. *)
Theorem dashboard_single_category (c g : string) (df : list Transaction) :
  c <> "Toutes" ->
  (List.length (sales_by_category (dashboard_filter c g df)) <= 1)%nat /\
  forall s, In s (sales_by_category (dashboard_filter c g df)) ->
            cs_category s = c.
Proof.
  intros Hc.
  set (t := dashboard_filter c g df).
  assert (Ht : forall r, In r t -> category r = c).
  { intros r Hr. unfold t in Hr. rewrite dashboard_filter_filter in Hr.
    apply filter_In in Hr. destruct Hr as [_ Hr].
    apply andb_true_iff in Hr. destruct Hr as [Hr _].
    apply selected_spec in Hr. now destruct Hr. }
  assert (Hin : forall s, In s (sales_by_category t) -> cs_category s = c).
  { intros s Hs. unfold sales_by_category in Hs.
    apply (Permutation_in _ (sort_desc_perm _ _)) in Hs.
    apply in_map_iff in Hs. destruct Hs as (g0 & <- & Hg0).
    cbn [cs_category].
    apply (in_map fst) in Hg0. rewrite groupby_keys in Hg0.
    apply (proj1 (group_keys_In String.eqb String.leb String.eqb_eq _ _)) in Hg0.
    apply in_map_iff in Hg0. destruct Hg0 as (r & <- & Hr).
    apply filter_In in Hr. now apply Ht. }
  split; [|exact Hin].
  rewrite <- (length_map cs_category).
  change 1%nat with (List.length [c]).
  apply NoDup_incl_length.
  - unfold sales_by_category.
    apply (Permutation_NoDup (l := map cs_category
             (map (fun g0 : string * list Transaction =>
                         {| cs_category := fst g0;
                            cs_revenue := Qsum (map total_amount (snd g0));
                            cs_transactions := Z.of_nat (List.length (snd g0));
                            cs_units_sold := Zsum (map quantity (snd g0)) |})
                  (groupby String.eqb String.leb category
                           (filter is_completed t))))).
    + apply Permutation_map, Permutation_sym, sort_desc_perm.
    + rewrite map_map. cbn [cs_category].
      rewrite groupby_keys. apply group_keys_NoDup, String.eqb_eq.
  - intros k Hk. apply in_map_iff in Hk. destruct Hk as (s & <- & Hs).
    left. symmetry. now apply Hin.
Qed.

Lemma dashboard_single_category_sample :
  "Livres" <> "Toutes" /\
  (List.length (sales_by_category (dashboard_filter "Livres" "Toutes" sample_table))
   <= 1)%nat.
Proof.
  split; [discriminate|].
  apply (dashboard_single_category "Livres" "Toutes" sample_table). discriminate.
Defined.
